(** * 3DErrorDetection: toolpath parser and ribbon mesh builder

    A shallow embedding of [utils.py] (G-code parser, corner normals, mesh
    extrusion) and of [WatchDog.build_object_mesh] from [watchdog.py].

    Python floats and numpy [float64] scalars are IEEE-754 binary64 numbers;
    they are modelled by Rocq's primitive floats, whose operations are the
    same correctly rounded ones.  Python integers are [Z], Python strings are
    [string] (one [ascii] per character), Python lists are [list]. *)

From Stdlib Require Import Floats ZArith List String Ascii Bool Lia.
From Equations Require Import Equations.
Import ListNotations.

Set Warnings "-inexact-float".

(** ** Python built-ins used by the sources *)

Module Py.

(** Exceptions the modelled code can raise. *)
Inductive exn : Type :=
| ValueError.

(** A computation either returns or raises. *)
Inductive result (A : Type) : Type :=
| Ok (a : A)
| Raise (e : exn).
Arguments Ok {A} a.
Arguments Raise {A} e.

Definition bind {A B : Type} (m : result A) (k : A -> result B) : result B :=
  match m with
  | Ok a => k a
  | Raise e => Raise e
  end.

(** [s.split(sep)] for a one-character separator: empty fields are kept and
    the result is never empty. *)
Fixpoint split (sep : ascii) (s : string) : list string :=
  match s with
  | EmptyString => [EmptyString]
  | String c s' =>
      if Ascii.eqb c sep then EmptyString :: split sep s'
      else match split sep s' with
           | [] => [String c EmptyString]
           | w :: ws => String c w :: ws
           end
  end.

(** [s[:n]]; shorter strings are returned whole. *)
Fixpoint slice_to (n : nat) (s : string) : string :=
  match n, s with
  | S n', String c s' => String c (slice_to n' s')
  | _, _ => EmptyString
  end.

(** [s[n:]]. *)
Fixpoint slice_from (n : nat) (s : string) : string :=
  match n, s with
  | S n', String _ s' => slice_from n' s'
  | _, _ => s
  end.

(** [c in s] for a one-character needle. *)
Fixpoint contains (c : ascii) (s : string) : bool :=
  match s with
  | EmptyString => false
  | String d s' => Ascii.eqb c d || contains c s'
  end.

(** [l[:k]] on lists, with Python's treatment of a negative bound. *)
Definition list_slice_to {A : Type} (k : Z) (l : list A) : list A :=
  if (0 <=? k)%Z then firstn (Z.to_nat k) l
  else firstn (Z.to_nat (Z.of_nat (List.length l) + k)) l.

(** *** [float(s)]

    Leading and trailing white space is stripped, underscores are allowed
    between digits, then the text is a signed [inf], [infinity] or [nan]
    (any case) or a decimal literal with optional fraction and exponent.
    The value is the binary64 number nearest to the decimal one.

    A character of a string is its code point, 0 to 255.  The white space
    [float] strips is the tab, the line feed, the vertical tab, the form feed,
    the carriage return and the space, and of the other characters the next
    line (133) and the no-break space (160), which it reads as spaces; the
    separators 28 to 31 are not stripped. *)

Definition is_space (c : ascii) : bool :=
  let n := nat_of_ascii c in
  ((9 <=? n) && (n <=? 13)) || (n =? 32) || (n =? 133) || (n =? 160).

Definition is_digit (c : ascii) : bool :=
  let n := nat_of_ascii c in (48 <=? n) && (n <=? 57).

Definition digit_value (c : ascii) : Z := Z.of_nat (nat_of_ascii c) - 48.

Definition to_lower (c : ascii) : ascii :=
  let n := nat_of_ascii c in
  if (65 <=? n) && (n <=? 90) then ascii_of_nat (n + 32) else c.

Fixpoint lstrip (s : list ascii) : list ascii :=
  match s with
  | c :: s' => if is_space c then lstrip s' else s
  | [] => []
  end.

Definition strip (s : list ascii) : list ascii :=
  rev (lstrip (rev (lstrip s))).

Fixpoint drop_underscores (prev : option ascii) (s : list ascii)
  : option (list ascii) :=
  match s with
  | [] => Some []
  | c :: s' =>
      if Ascii.eqb c "_" then
        match prev, s' with
        | Some p, n :: _ =>
            if is_digit p && is_digit n then drop_underscores (Some c) s'
            else None
        | _, _ => None
        end
      else option_map (cons c) (drop_underscores (Some c) s')
  end.

(** Reads a run of digits: the accumulated value, how many digits were read,
    and the rest of the text. *)
Fixpoint take_digits (s : list ascii) (acc : Z) (count : Z)
  : Z * Z * list ascii :=
  match s with
  | c :: s' =>
      if is_digit c then take_digits s' (10 * acc + digit_value c) (count + 1)
      else (acc, count, s)
  | [] => (acc, count, [])
  end.

Definition take_sign (s : list ascii) : bool * list ascii :=
  match s with
  | c :: s' =>
      if Ascii.eqb c "-" then (true, s')
      else if Ascii.eqb c "+" then (false, s')
      else (false, s)
  | [] => (false, [])
  end.

(** The binary64 number nearest to [(-1)^neg * m * 10^e10]. *)
Definition decimal_to_float (neg : bool) (m : Z) (e10 : Z) : float :=
  match m with
  | Zpos p =>
      if (0 <=? e10)%Z then
        let n := (Z.pos p * 10 ^ e10)%Z in
        SF2Prim (binary_normalize prec emax (if neg then (- n)%Z else n) 0 neg)
      else
        let q := SFdiv prec emax (S754_finite false p 0)
                   (S754_finite false (Z.to_pos (10 ^ (- e10))) 0) in
        SF2Prim (if neg then SFopp q else q)
  | _ => if neg then (-0)%float else 0%float
  end.

Definition parse_exponent (s : list ascii) : option (Z * list ascii) :=
  match s with
  | c :: s' =>
      if Ascii.eqb (to_lower c) "e" then
        let '(neg, s1) := take_sign s' in
        let '(v, k, rest) := take_digits s1 0 0 in
        if (0 <? k)%Z then Some (if neg then (- v)%Z else v, rest) else None
      else Some (0%Z, s)
  | [] => Some (0%Z, [])
  end.

Definition parse_decimal (neg : bool) (s : list ascii) : option float :=
  let '(m1, k1, s1) := take_digits s 0 0 in
  let '(m2, k2, s2) :=
    match s1 with
    | c :: s1' =>
        if Ascii.eqb c "." then
          let '(m, k, r) := take_digits s1' m1 0 in (m, k, r)
        else (m1, 0%Z, s1)
    | [] => (m1, 0%Z, [])
    end in
  if (0 <? k1 + k2)%Z then
    match parse_exponent s2 with
    | Some (e, []) => Some (decimal_to_float neg m2 (e - k2))
    | _ => None
    end
  else None.

Definition float_of_chars (s : list ascii) : option float :=
  match drop_underscores None (strip s) with
  | None => None
  | Some t =>
      let '(neg, body) := take_sign t in
      let word := string_of_list_ascii (map to_lower body) in
      if String.eqb word "inf" || String.eqb word "infinity" then
        Some (if neg then neg_infinity else infinity)
      else if String.eqb word "nan" then Some nan
      else parse_decimal neg body
  end.

(** [float(s)]: the value, or [ValueError]. *)
Definition float (s : string) : result PrimFloat.float :=
  match float_of_chars (list_ascii_of_string s) with
  | Some v => Ok v
  | None => Raise ValueError
  end.

(** [int(c)] for a one-digit string. *)
Definition int_of_digit (c : ascii) : Z := digit_value c.

End Py.

Notation "x <- m ;; k" := (Py.bind m (fun x => k))
  (at level 61, m at next level, right associativity).

(** ** [utils.py]: the toolpath parser *)

(** A point is the list [[x, y, z]]. *)
Definition point : Type := PrimFloat.float * PrimFloat.float * PrimFloat.float.
Definition polyline : Type := list point.
Definition layer : Type := list polyline.

(** The six entries of [core_switch_save], in index order. *)
Record saved_values : Type := {
  save_x : PrimFloat.float;
  save_y : PrimFloat.float;
  save_z : PrimFloat.float;
  save_last_extruded_z : PrimFloat.float;
  save_last_e : PrimFloat.float;
  save_e_change : PrimFloat.float
}.

(** The local variables of [parse_gcode_file] that live across lines. *)
Record state : Type := {
  one_layers : list layer;
  two_layers : list layer;
  one_lines : layer;
  two_lines : layer;
  one_new_line : polyline;
  two_new_line : polyline;
  current_x : PrimFloat.float;
  current_y : PrimFloat.float;
  current_z : PrimFloat.float;
  last_extruded_z : PrimFloat.float;
  last_e : PrimFloat.float;
  e_change : PrimFloat.float;
  core_switch_save : saved_values;
  printing : bool;
  printcore : Z
}.

Definition initial_state : state := {|
  one_layers := []; two_layers := [];
  one_lines := []; two_lines := [];
  one_new_line := []; two_new_line := [];
  current_x := 0; current_y := 0; current_z := 0;
  last_extruded_z := 0; last_e := 0; e_change := 0;
  core_switch_save := {| save_x := 0; save_y := 0; save_z := 0;
                         save_last_extruded_z := 0; save_last_e := 0;
                         save_e_change := 0 |};
  printing := false;
  printcore := 0
|}.

(** Lines 167-175: the active values and [core_switch_save] change places. *)
Definition switch_core (new_core : Z) (st : state) : state := {|
  one_layers := one_layers st; two_layers := two_layers st;
  one_lines := one_lines st; two_lines := two_lines st;
  one_new_line := one_new_line st; two_new_line := two_new_line st;
  current_x := save_x (core_switch_save st);
  current_y := save_y (core_switch_save st);
  current_z := save_z (core_switch_save st);
  last_extruded_z := save_last_extruded_z (core_switch_save st);
  last_e := save_last_e (core_switch_save st);
  e_change := save_e_change (core_switch_save st);
  core_switch_save := {| save_x := current_x st; save_y := current_y st;
                         save_z := current_z st;
                         save_last_extruded_z := last_extruded_z st;
                         save_last_e := last_e st;
                         save_e_change := e_change st |};
  printing := printing st;
  printcore := new_core
|}.

(** Lines 157-175: a line that starts with [T0] or [T1]. *)
Definition tool_change (line : string) (st : state) : state :=
  if String.eqb (Py.slice_to 2 line) "T0" || String.eqb (Py.slice_to 2 line) "T1"
  then
    match Py.slice_from 1 line with
    | String d _ =>
        let new_core := Py.int_of_digit d in
        if negb (new_core =? printcore st)%Z then switch_core new_core st else st
    | EmptyString => st
    end
  else st.

(** Lines 179-180. *)
Definition start_marker (line : string) (st : state) : state :=
  if String.eqb (Py.slice_to 4 line) "M205" then {|
    one_layers := one_layers st; two_layers := two_layers st;
    one_lines := one_lines st; two_lines := two_lines st;
    one_new_line := one_new_line st; two_new_line := two_new_line st;
    current_x := current_x st; current_y := current_y st;
    current_z := current_z st; last_extruded_z := last_extruded_z st;
    last_e := last_e st; e_change := e_change st;
    core_switch_save := core_switch_save st;
    printing := true;
    printcore := printcore st
  |} else st.

(** [new_x, new_y, new_z, new_e]. *)
Definition targets : Type :=
  PrimFloat.float * PrimFloat.float * PrimFloat.float * PrimFloat.float.

(** Lines 194-214: the loop over [parameters[1:]]. *)
Fixpoint read_parameters (hotend_distance : PrimFloat.float) (core : Z)
    (parameters : list string) (new : targets) : Py.result targets :=
  match parameters with
  | [] => Py.Ok new
  | EmptyString :: rest => read_parameters hotend_distance core rest new
  | String letter number :: rest =>
      let '(new_x, new_y, new_z, new_e) := new in
      if Ascii.eqb letter "X" then
        v <- Py.float number ;;
        let v := if (core =? 1)%Z then (v + hotend_distance)%float else v in
        read_parameters hotend_distance core rest (v, new_y, new_z, new_e)
      else if Ascii.eqb letter "Y" then
        v <- Py.float number ;;
        read_parameters hotend_distance core rest (new_x, v, new_z, new_e)
      else if Ascii.eqb letter "Z" then
        v <- Py.float number ;;
        read_parameters hotend_distance core rest (new_x, new_y, v, new_e)
      else if Ascii.eqb letter "E" then
        v <- Py.float number ;;
        read_parameters hotend_distance core rest (new_x, new_y, new_z, v)
      else read_parameters hotend_distance core rest new
  end.

(** Line 219: the test that guards the extrusion bookkeeping. *)
Definition mentions_extrusion (line : string) : bool :=
  Py.contains "E" line &&
  (Py.contains "X" line || Py.contains "Y" line || Py.contains "Z" line).

(** Lines 224-228: the new value of [e_change]. *)
Definition update_e_change (e_change new_e last_e : PrimFloat.float)
  : PrimFloat.float :=
  let extrusion_dif := (new_e - last_e)%float in
  if (e_change <=? 0)%float then (e_change + extrusion_dif)%float
  else extrusion_dif.

(** Lines 186-267: a [G0]/[G1] line while [printing].  Returns the next
    state together with the local flag [did_extrude]. *)
Definition motion (hotend_distance : PrimFloat.float) (line : string)
    (st : state) : Py.result (state * bool) :=
  let parameters := Py.split " " line in
  new <- read_parameters hotend_distance (printcore st) (tl parameters)
           (current_x st, current_y st, current_z st, last_e st) ;;
  let '(new_x, new_y, new_z, new_e) := new in
  let e_change' :=
    if mentions_extrusion line
    then update_e_change (e_change st) new_e (last_e st)
    else e_change st in
  let did_extrude := mentions_extrusion line && (0 <? e_change')%float in
  let new_layer := negb (new_z =? last_extruded_z st)%float in
  let here : point := (new_x, new_y, new_z) in
  Py.Ok
    (if did_extrude then
       if (printcore st =? 0)%Z then {|
         one_layers := if new_layer then one_layers st ++ [one_lines st]
                       else one_layers st;
         two_layers := two_layers st;
         one_lines := if new_layer then [] else one_lines st;
         two_lines := two_lines st;
         one_new_line := (if new_layer then [] else one_new_line st) ++ [here];
         two_new_line := two_new_line st;
         current_x := new_x; current_y := new_y; current_z := new_z;
         last_extruded_z := new_z;
         last_e := last_e st; e_change := e_change';
         core_switch_save := core_switch_save st;
         printing := printing st; printcore := printcore st
       |} else {|
         one_layers := one_layers st;
         two_layers := if new_layer then two_layers st ++ [two_lines st]
                       else two_layers st;
         one_lines := one_lines st;
         two_lines := if new_layer then [] else two_lines st;
         one_new_line := one_new_line st;
         two_new_line := (if new_layer then [] else two_new_line st) ++ [here];
         current_x := new_x; current_y := new_y; current_z := new_z;
         last_extruded_z := new_z;
         last_e := last_e st; e_change := e_change';
         core_switch_save := core_switch_save st;
         printing := printing st; printcore := printcore st
       |}
     else
       if (printcore st =? 0)%Z then {|
         one_layers := one_layers st; two_layers := two_layers st;
         one_lines := if (1 <? List.length (one_new_line st))%nat
                      then one_lines st ++ [one_new_line st]
                      else one_lines st;
         two_lines := two_lines st;
         one_new_line := [here];
         two_new_line := two_new_line st;
         current_x := new_x; current_y := new_y; current_z := new_z;
         last_extruded_z := last_extruded_z st;
         last_e := last_e st; e_change := e_change';
         core_switch_save := core_switch_save st;
         printing := printing st; printcore := printcore st
       |} else {|
         one_layers := one_layers st; two_layers := two_layers st;
         one_lines := one_lines st;
         two_lines := if (1 <? List.length (two_new_line st))%nat
                      then two_lines st ++ [two_new_line st]
                      else two_lines st;
         one_new_line := one_new_line st;
         two_new_line := [here];
         current_x := new_x; current_y := new_y; current_z := new_z;
         last_extruded_z := last_extruded_z st;
         last_e := last_e st; e_change := e_change';
         core_switch_save := core_switch_save st;
         printing := printing st; printcore := printcore st
       |},
     did_extrude).

(** Line 184. *)
Definition is_motion (line : string) : bool :=
  String.eqb (Py.slice_to 2 line) "G0" || String.eqb (Py.slice_to 2 line) "G1".

(** Line 151: [line.split(";")[0]]. *)
Definition strip_comment (raw : string) : string :=
  hd EmptyString (Py.split ";" raw).

(** One iteration of the loop of lines 148-267, with [did_extrude] when the
    iteration reached the motion branch. *)
Definition process_line_flag (hotend_distance : PrimFloat.float) (st : state)
    (raw : string) : Py.result (state * option bool) :=
  let line := strip_comment raw in
  if String.eqb line "" then Py.Ok (st, None)
  else
    let st1 := tool_change line st in
    let st2 := start_marker line st1 in
    if printing st2 && is_motion line then
      r <- motion hotend_distance line st2 ;;
      Py.Ok (fst r, Some (snd r))
    else Py.Ok (st2, None).

Definition process_line (hotend_distance : PrimFloat.float) (st : state)
    (raw : string) : Py.result state :=
  r <- process_line_flag hotend_distance st raw ;; Py.Ok (fst r).

(** The whole loop over the lines of the file. *)
Fixpoint run (hotend_distance : PrimFloat.float) (st : state)
    (file : list string) : Py.result state :=
  match file with
  | [] => Py.Ok st
  | raw :: rest =>
      st' <- process_line hotend_distance st raw ;;
      run hotend_distance st' rest
  end.

(** The values of [did_extrude] on the motion lines of a file, in order. *)
Fixpoint extrusion_flags (hotend_distance : PrimFloat.float) (st : state)
    (file : list string) : Py.result (list bool) :=
  match file with
  | [] => Py.Ok []
  | raw :: rest =>
      r <- process_line_flag hotend_distance st raw ;;
      flags <- extrusion_flags hotend_distance (fst r) rest ;;
      Py.Ok (match snd r with Some b => b :: flags | None => flags end)
  end.

(** [parse_gcode_file], on the lines the file iterator yields (each with its
    line terminator). Lines 271-276 drop the first layer of either list. *)
Definition parse_gcode_file (file : list string)
    (hotend_distance : PrimFloat.float) : Py.result (list layer * list layer) :=
  st <- run hotend_distance initial_state file ;;
  Py.Ok (tl (one_layers st), tl (two_layers st)).

(** ** [utils.py]: vectors and corner normals *)

(** [np.pi], the binary64 number nearest to pi. *)
Definition np_pi : PrimFloat.float := 0x1.921fb54442d18p+1%float.

Section CornerNormals.

(** [numpy.cos] and [numpy.sin], which the sources call but do not define. *)
Variables np_cos np_sin : PrimFloat.float -> PrimFloat.float.

(** [x**2] on a numpy scalar, the power function of the C library at the
    exponent 2: it need not be the correctly rounded product [x*x]. *)
Variable np_square : PrimFloat.float -> PrimFloat.float.

Local Open Scope float_scope.

(** A 2-vector is the list [[vx, vy]]. *)
Definition vector : Type := PrimFloat.float * PrimFloat.float.

Definition rotate_vector (v : vector) (angle : PrimFloat.float) : vector :=
  (fst v * np_cos angle - snd v * np_sin angle,
   fst v * np_sin angle + snd v * np_cos angle).

Definition scale_vector (v : vector) (length : PrimFloat.float) : vector :=
  let mag := sqrt (np_square (fst v) + np_square (snd v)) in
  (length * (fst v / mag), length * (snd v / mag)).

Definition add_vector_bi (v : vector) (p : point) : point * point :=
  let '(x, y, z) := p in
  ((x + fst v, y + snd v, z), (x - fst v, y - snd v, z)).

(** [line[i]] for an index inside the list. *)
Definition item (line : polyline) (i : nat) : point := nth i line (0, 0, 0).

Definition xy_difference (a b : point) : vector :=
  let '(ax, ay, _) := a in
  let '(bx, by', _) := b in
  (ax - bx, ay - by').

(** Line 47. *)
Definition first_normal (line : polyline) (width : PrimFloat.float) : vector :=
  scale_vector
    (rotate_vector (xy_difference (item line 1) (item line 0)) (np_pi / 2))
    width.

(** Line 100: [line[-1]] and [line[-2]]. *)
Definition end_normal (line : polyline) (width : PrimFloat.float) : vector :=
  let n := List.length line in
  scale_vector
    (rotate_vector (xy_difference (item line (n - 1)) (item line (n - 2)))
       (np_pi / 2))
    width.

(** Lines 62-73: the two rotated difference vectors at interior index [i]. *)
Definition last_normal_at (line : polyline) (i : nat) : vector :=
  rotate_vector (xy_difference (item line i) (item line (i - 1))) (np_pi / 2).

Definition next_normal_at (line : polyline) (i : nat) : vector :=
  rotate_vector (xy_difference (item line i) (item line (i + 1)))
    (- np_pi / 2).

(** Line 84: the test for the two normals being exact negatives. *)
Definition normals_cancel (last_normal next_normal : vector) : bool :=
  (fst last_normal =? fst next_normal * -1) &&
  (snd last_normal =? snd next_normal * -1).

(** Lines 84-87. *)
Definition combined_normal (line : polyline) (i : nat) : vector :=
  let last_normal := last_normal_at line i in
  let next_normal := next_normal_at line i in
  if normals_cancel last_normal next_normal then last_normal
  else (fst last_normal + fst next_normal, snd last_normal + snd next_normal).

(** Line 90: the divisor of line 91. *)
Definition magnitude_at (line : polyline) (i : nat) : PrimFloat.float :=
  let normal := combined_normal line i in
  sqrt (np_square (fst normal) + np_square (snd normal)).

(** Line 91. *)
Definition interior_normal (line : polyline) (width : PrimFloat.float)
    (i : nat) : vector :=
  let normal := combined_normal line i in
  let magnitude := magnitude_at line i in
  ((fst normal / magnitude) * width, (snd normal / magnitude) * width).

(** Lines 94-97: what one iteration appends to [result]. *)
Definition append_corner (line : polyline) (width : PrimFloat.float)
    (result : list point) (i : nat) : list point :=
  let corner_points := add_vector_bi (interior_normal line width i) (item line i) in
  result ++ [fst corner_points; snd corner_points].

Definition get_corner_normals (line : polyline) (line_width : PrimFloat.float)
  : list point :=
  let width := line_width in
  if (1 <? List.length line)%nat then
    let start_points := add_vector_bi (first_normal line width) (item line 0) in
    let result := [fst start_points; snd start_points] in
    let result :=
      fold_left (append_corner line width)
        (seq 1 (List.length line - 2)) result in
    let end_points :=
      add_vector_bi (end_normal line width)
        (item line (List.length line - 1)) in
    result ++ [fst end_points; snd end_points]
  else [].

End CornerNormals.

(** ** [utils.py]: the ribbon mesh *)

(** A triangle is a list of three vertex indices. *)
Definition triangle : Type := Z * Z * Z.

Local Open Scope Z_scope.

(** Lines 299-306: the eight triangles one iteration adds. *)
Definition segment_triangles (point_count i : Z) : list triangle :=
  [ (i, i + 1, i + 3); (i, i + 3, i + 2);
    (point_count + i, point_count + i + 3, point_count + i + 1);
    (point_count + i, point_count + i + 2, point_count + i + 3);
    (i, i + 2, i + point_count); (i + 2, i + 2 + point_count, i + point_count);
    (i + 1, i + 1 + point_count, i + 3);
    (i + 3, i + 1 + point_count, i + 3 + point_count) ].

(** Lines 298-307: [while i < point_count-2]. *)
Equations? mesh_loop (point_count i : Z) (indices : list triangle)
  : list triangle by wf (Z.to_nat (point_count - 2 - i)) lt :=
  mesh_loop point_count i indices with Z_lt_dec i (point_count - 2) := {
    | left _ =>
        mesh_loop point_count (i + 2)
          (indices ++ segment_triangles point_count i);
    | right _ => indices }.
Proof. lia. Qed.

(** Line 288: [np.array(points) + np.array([0,0,line_height])], for a list
    that is not empty (every caller passes four points or more). *)
Definition raise_point (line_height : PrimFloat.float) (p : point) : point :=
  let '(x, y, z) := p in
  ((x + 0)%float, (y + 0)%float, (z + line_height)%float).

Definition build_mesh_from_points (points : list point)
    (line_height : PrimFloat.float) : list point * list triangle :=
  let point_count := Z.of_nat (List.length points) in
  let second_layer := map (raise_point line_height) points in
  let indices :=
    [ (0, point_count + 1, 1); (0, point_count, point_count + 1) ] in
  let indices :=
    indices ++
    [ (point_count - 2, point_count - 1, point_count * 2 - 1);
      (point_count - 2, point_count * 2 - 1, point_count * 2 - 2) ] in
  let indices := mesh_loop point_count 0 indices in
  (points ++ second_layer, indices).

Local Close Scope Z_scope.

(** ** [watchdog.py]: the object mesh *)

(** The fields [WatchDog.__init__] stores that are plain data. *)
Record WatchDog : Type := {
  camera_pos : list PrimFloat.float;
  camera_rot : list PrimFloat.float;
  camera_fov : PrimFloat.float;
  aspect_ratio : PrimFloat.float;
  nozzle_width : PrimFloat.float;
  main_color : list PrimFloat.float;
  secondary_color : list PrimFloat.float
}.

(** The keyword arguments of the call [trimesh.Trimesh(vertices=..., faces=...,
    vertex_colors=...)] of line 89. *)
Record TrimeshArguments : Type := {
  vertices : list point;
  faces : list triangle;
  vertex_colors : list (list PrimFloat.float)
}.

Section ObjectMesh.

Variables np_cos np_sin np_square : PrimFloat.float -> PrimFloat.float.

(** [trimesh.Trimesh], which the sources call but do not define: the mesh
    the library constructs from the arguments.  By default it processes
    them (it may merge vertices and drop faces), so the mesh returned need
    not have the vertices and faces it was given. *)
Variable Mesh : Type.
Variable Trimesh : TrimeshArguments -> Mesh.

(** [np.array(new_indices) + len(vertices)]. *)
Definition rebase (offset : Z) (t : triangle) : triangle :=
  let '(a, b, c) := t in ((a + offset)%Z, (b + offset)%Z, (c + offset)%Z).

(** Lines 65-70 (and 78-83): the body of the loop over the lines of a layer. *)
Definition add_line (buffers : list point * list triangle) (line : polyline)
  : list point * list triangle :=
  let '(vertices, indices) := buffers in
  if (1 <? List.length line)%nat then
    let normal_points :=
      get_corner_normals np_cos np_sin np_square line 0.2%float in
    let '(new_vertices, new_indices) :=
      build_mesh_from_points normal_points 0.2%float in
    let new_indices :=
      map (rebase (Z.of_nat (List.length vertices))) new_indices in
    (vertices ++ new_vertices, indices ++ new_indices)
  else (vertices, indices).

(** Lines 62-70 (and 75-83): the loops over [layers[:height]]. *)
Definition add_layers (buffers : list point * list triangle)
    (layers : list layer) (height : Z) : list point * list triangle :=
  match layers with
  | [] => buffers
  | _ =>
      fold_left (fun b layer => fold_left add_line layer b)
        (Py.list_slice_to height layers) buffers
  end.

(** Lines 59-87: the three lists line 89 passes on. *)
Definition mesh_arguments (self : WatchDog)
    (main_layers secondary_layers : list layer) (height : Z)
  : TrimeshArguments :=
  let buffers := add_layers ([], []) main_layers height in
  let main_object_vertices := List.length (fst buffers) in
  let buffers := add_layers buffers secondary_layers height in
  let secondary_vertices := List.length (fst buffers) - main_object_vertices in
  let colors :=
    repeat (main_color self) main_object_vertices ++
    repeat (secondary_color self) secondary_vertices in
  {| vertices := fst buffers; faces := snd buffers; vertex_colors := colors |}.

Definition build_object_mesh (self : WatchDog)
    (main_layers secondary_layers : list layer) (height : Z) : Mesh :=
  Trimesh (mesh_arguments self main_layers secondary_layers height).

End ObjectMesh.

(** The values [numpy.cos] and [numpy.sin] return at the two angles the
    sources use, [np.pi/2] and [-np.pi/2]. *)
Definition cos_quarter (angle : PrimFloat.float) : PrimFloat.float :=
  0x1.1a62633145c07p-54%float.

Definition sin_quarter (angle : PrimFloat.float) : PrimFloat.float :=
  if (angle <? 0)%float then (-1)%float else 1%float.

(** The product [x*x], the value of [x**2] wherever the square is a binary64
    number (as for 0, 1 and 10); elsewhere the power may differ from it in
    the last place. *)
Definition square_product (x : PrimFloat.float) : PrimFloat.float :=
  (x * x)%float.

(** ** Vocabulary of the statements *)

Local Open Scope string_scope.

(** The line terminator the file iterator leaves on each line. *)
Definition LF : string := String (ascii_of_nat 10) EmptyString.

(** The six active values, in the order [core_switch_save] keeps them. *)
Definition active_values (st : state) : saved_values := {|
  save_x := current_x st; save_y := current_y st; save_z := current_z st;
  save_last_extruded_z := last_extruded_z st;
  save_last_e := last_e st; save_e_change := e_change st
|}.

(** The text of [raw], without its comment, starts with [T0] (for core 0)
    or [T1] (for any other core). *)
Definition tool_line (core : Z) (raw : string) : bool :=
  String.eqb (Py.slice_to 2 (strip_comment raw))
    (if (core =? 0)%Z then "T0" else "T1").

(** The accumulators of the active core. *)
Definition active_layers (st : state) : list layer :=
  if (printcore st =? 0)%Z then one_layers st else two_layers st.

Definition active_lines (st : state) : layer :=
  if (printcore st =? 0)%Z then one_lines st else two_lines st.

Definition active_new_line (st : state) : polyline :=
  if (printcore st =? 0)%Z then one_new_line st else two_new_line st.

(** The accumulators of the other core. *)
Definition idle_tracks (st : state) : list layer * layer * polyline :=
  if (printcore st =? 0)%Z
  then (two_layers st, two_lines st, two_new_line st)
  else (one_layers st, one_lines st, one_new_line st).

(** The end-to-end stream of the specification. *)
Definition scenario : list string :=
  [ "M205" ++ LF;
    "G1 X10 Y0 Z0.2 E1" ++ LF;
    "G1 X10 Y10 Z0.2 E2" ++ LF;
    "G0 X0 Y0 Z0.2" ++ LF ].

(** Five moves whose E operands 1, -2, -1, 0, 2 differ from one command to
    the next by +1, -3, +1, +1, +2. *)
Definition retraction_moves : list string :=
  [ "M205" ++ LF;
    "G1 X1 E1" ++ LF;
    "G1 X2 E-2" ++ LF;
    "G1 X3 E-1" ++ LF;
    "G1 X4 E0" ++ LF;
    "G1 X5 E2" ++ LF ].

(** The E operands of the five moves of [retraction_moves]. *)
Definition e_operands : list PrimFloat.float :=
  [1; -2; -1; 0; 2]%float.

(** The balance rule in the words of the specification (section 4.1, step
    5), on a list of differences, for comparison with the parser: the
    balance accumulates while it is not positive and restarts otherwise; a
    move extrudes when the balance it leaves is positive. *)
Fixpoint balance_flags (balance : PrimFloat.float)
    (deltas : list PrimFloat.float) : list bool :=
  match deltas with
  | [] => []
  | d :: rest =>
      let balance' :=
        if (balance <=? 0)%float then (balance + d)%float else d in
      (0 <? balance')%float :: balance_flags balance' rest
  end.

(** Differences between consecutive values, starting from [previous]. *)
Fixpoint differences (previous : PrimFloat.float)
    (values : list PrimFloat.float) : list PrimFloat.float :=
  match values with
  | [] => []
  | v :: rest => (v - previous)%float :: differences v rest
  end.

(** The tests of lines 157, 179 and 184: the only texts a line can start
    with to have any effect. *)
Definition recognised (line : string) : bool :=
  String.eqb (Py.slice_to 2 line) "T0" || String.eqb (Py.slice_to 2 line) "T1" ||
  String.eqb (Py.slice_to 4 line) "M205" || is_motion line.

(** A parameter that starts with one of the letters the parser reads and
    whose remainder [float] rejects. *)
Definition malformed_operand (p : string) : bool :=
  match p with
  | String letter number =>
      (Ascii.eqb letter "X" || Ascii.eqb letter "Y" ||
       Ascii.eqb letter "Z" || Ascii.eqb letter "E") &&
      match Py.float number with
      | Py.Raise _ => true
      | Py.Ok _ => false
      end
  | EmptyString => false
  end.

(** The command code of a line: its first word. *)
Fixpoint first_word (s : string) : string :=
  match s with
  | String c s' => if Py.is_space c then EmptyString else String c (first_word s')
  | EmptyString => EmptyString
  end.

Definition command_code (raw : string) : string :=
  first_word (strip_comment raw).

Definition recognised_codes : list string := ["T0"; "T1"; "M205"; "G0"; "G1"].

(** The position and E value a motion line asks for, as lines 186-214 read
    them in state [st]. *)
Definition move_target (hotend_distance : PrimFloat.float) (st : state)
    (raw : string) : Py.result targets :=
  read_parameters hotend_distance (printcore st)
    (tl (Py.split " " (strip_comment raw)))
    (current_x st, current_y st, current_z st, last_e st).

(** The value [did_extrude] takes on a motion line that asks for [new_e]. *)
Definition move_extrudes (st : state) (raw : string)
    (new_e : PrimFloat.float) : bool :=
  mentions_extrusion (strip_comment raw) &&
  (0 <? update_e_change (e_change st) new_e (last_e st))%float.

(** A stream with two layers of one core, a travel move between them. *)
Definition two_layer_print : list string :=
  [ "M205" ++ LF;
    "G1 X1 Y0 Z0.2 E1" ++ LF;
    "G1 X2 Y0 Z0.2 E2" ++ LF;
    "G0 X0 Y0" ++ LF;
    "G1 X1 Y0 Z0.4 E3" ++ LF;
    "G1 X2 Y0 Z0.4 E4" ++ LF;
    "G0 X0 Y0" ++ LF;
    "G1 X3 Y0 Z0.6 E5" ++ LF ].

(** Every polyline of a layer has two points or more. *)
Definition two_points_or_more (l : layer) : Prop :=
  Forall (fun line : polyline => 2 <= List.length line) l.

(** Two extruding moves after the start marker. *)
Definition open_segment : list string :=
  [ "M205" ++ LF;
    "G1 X1 Y0 Z0.2 E1" ++ LF;
    "G1 X2 Y0 Z0.2 E2" ++ LF ].

(** The state the parser is in after [open_segment]: the open polyline of
    core 0 holds two points at z = 0.2. *)
Definition mid_layer_state : state :=
  match run 0 initial_state open_segment with
  | Py.Ok st => st
  | Py.Raise _ => initial_state
  end.

Section CornerNormalOf.

Variables np_cos np_sin np_square : PrimFloat.float -> PrimFloat.float.

(** The normal [get_corner_normals] uses at index [i] of a line: line 47 for
    the first point, line 100 for the last, lines 62-91 in between. *)
Definition corner_normal (line : polyline) (width : PrimFloat.float)
    (i : nat) : vector :=
  if (i =? 0)%nat then first_normal np_cos np_sin np_square line width
  else if (i =? List.length line - 1)%nat
  then end_normal np_cos np_sin np_square line width
  else interior_normal np_cos np_sin np_square line width i.

End CornerNormalOf.

(** The values [i] takes in the loop of lines 298-307 when it runs [count]
    times from [start]. *)
Fixpoint loop_indices (start : Z) (count : nat) : list Z :=
  match count with
  | O => []
  | S count' => start :: loop_indices (start + 2)%Z count'
  end.

(** Triangle [t] has vertex index [v] among its three. *)
Definition uses (t : triangle) (v : Z) : Prop :=
  let '(a, b, c) := t in a = v \/ b = v \/ c = v.

(** The boundary of the shortest ribbon: two left/right pairs. *)
Definition two_pairs : list point :=
  [(0, 1, 0); (0, -1, 0); (5, 1, 0); (5, -1, 0)]%float.

(** A line whose points 1, 2 and 3 coincide, and a print that draws it. *)
Definition stalled_line : polyline :=
  [(0, 0, 0.2); (1, 0, 0.2); (1, 0, 0.2); (1, 0, 0.2); (2, 0, 0.2)]%float.

Definition stalled_print : list string :=
  [ "M205" ++ LF;
    "G1 X0 Y0 Z0.2 E1" ++ LF;
    "G1 X1 Y0 E2" ++ LF;
    "G1 X1 Y0 E3" ++ LF;
    "G1 X1 Y0 E4" ++ LF;
    "G1 X2 Y0 E5" ++ LF;
    "G0 X0 Y0" ++ LF;
    "G1 X5 Y0 Z0.4 E6" ++ LF ].

(** A line that goes out along the x axis and comes straight back. *)
Definition reversal_line : polyline :=
  [(0, 0, 0.2); (10, 0, 0.2); (0, 0, 0.2)]%float.

(** A line with one right-angle turn. *)
Definition turning_line : polyline :=
  [(0, 0, 0.2); (10, 0, 0.2); (10, 10, 0.2)]%float.

(** [self] with another [nozzle_width]. *)
Definition with_nozzle_width (w : PrimFloat.float) (self : WatchDog) : WatchDog := {|
  camera_pos := camera_pos self; camera_rot := camera_rot self;
  camera_fov := camera_fov self; aspect_ratio := aspect_ratio self;
  nozzle_width := w;
  main_color := main_color self; secondary_color := secondary_color self
|}.

(** The instance [test_watchdog.py] builds (nozzle width 0.4). *)
Definition test_watchdog : WatchDog := {|
  camera_pos := [273.7; -5; 15.0]%float;
  camera_rot := [1.123; 0.05; 0.85]%float;
  camera_fov := (np_pi / 3.0)%float;
  aspect_ratio := 1.0%float;
  nozzle_width := 0.4%float;
  main_color := [0.0; 0.0; 1.0]%float;
  secondary_color := [0.87; 0.84; 0.67]%float
|}.

(** One straight polyline in one layer. *)
Definition straight_track : list layer :=
  [[[(0, 0, 0); (10, 0, 0)]]]%float.

(** ** Proof steps used more than once *)

(** Case analysis on every condition of the goal. *)
Ltac split_ifs :=
  repeat match goal with
         | |- context [if ?b then _ else _] => destruct b
         end.

(** From [H : motion ... = Py.Ok (st', flag)], the parameters were read
    without error and [st'] and [flag] are what [motion] builds. *)
Ltac open_motion H :=
  unfold motion in H;
  match type of H with
  | Py.bind ?m _ = _ =>
      destruct m as [[[[?x ?y] ?z] ?e] | ?err]; simpl in H;
      [injection H as <- <- | discriminate H]
  end.

(** ** [watchdog.py]: the stored tracks *)

(** The attributes [self.layers] and [self.secondary_layers]. *)
Record WatchDogLayers : Type := {
  self_layers : list layer;
  self_secondary_layers : list layer
}.

(** [WatchDog.set_layers]: the second track is stored only when it is not
    the empty list. *)
Definition set_layers (self : WatchDogLayers)
    (layers secondary_layers : list layer) : WatchDogLayers := {|
  self_layers := layers;
  self_secondary_layers :=
    match secondary_layers with
    | [] => self_secondary_layers self
    | _ :: _ => secondary_layers
    end
|}.

(** [WatchDog.read_layers_from_file], on the lines of the file: both
    attributes are assigned from one call of [parse_gcode_file] with a
    hotend distance of 18; when the call raises nothing is assigned. *)
Definition read_layers_from_file (self : WatchDogLayers) (file : list string)
  : Py.result WatchDogLayers :=
  r <- parse_gcode_file file 18 ;;
  Py.Ok {| self_layers := fst r; self_secondary_layers := snd r |}.

(** ** Vocabulary of the further statements *)

(** The text of [raw], without its comment, starts with [M205]. *)
Definition has_marker (raw : string) : bool :=
  String.eqb (Py.slice_to 4 (strip_comment raw)) "M205".

(** The text of [raw], without its comment, starts with [T1]. *)
Definition selects_second_core (raw : string) : bool :=
  String.eqb (Py.slice_to 2 (strip_comment raw)) "T1".

(** The parameters of a line as line 194 walks them. *)
Definition parameters_of (raw : string) : list string :=
  tl (Py.split " " (strip_comment raw)).

(** No parameter of the line is a malformed operand. *)
Definition well_formed_line (raw : string) : Prop :=
  Forall (fun p => malformed_operand p = false) (parameters_of raw).

(** All three indices of a triangle lie in [0, bound). *)
Definition within (bound : Z) (t : triangle) : Prop :=
  let '(a, b, c) := t in
  (0 <= a < bound)%Z /\ (0 <= b < bound)%Z /\ (0 <= c < bound)%Z.

(** The three indices of a triangle differ from one another. *)
Definition distinct_corners (t : triangle) : Prop :=
  let '(a, b, c) := t in a <> b /\ b <> c /\ a <> c.

(** The test of lines 65 and 78 of [watchdog.py]. *)
Definition long_line (line : polyline) : bool := (1 <? List.length line)%nat.

(** The polylines of the first [height] layers that pass that test, in the
    order the loops of [build_object_mesh] meet them. *)
Definition ribbon_lines (layers : list layer) (height : Z) : list polyline :=
  filter long_line (List.concat (Py.list_slice_to height layers)).

(** The number of points of a list of polylines. *)
Definition total_points (lines : list polyline) : nat :=
  list_sum (map (@List.length point) lines).

(** The six accumulators of the parser. *)
Definition tracks_of (st : state)
  : list layer * list layer * layer * layer * polyline * polyline :=
  (one_layers st, two_layers st, one_lines st, two_lines st,
   one_new_line st, two_new_line st).

(** A file with a tool change and a malformed move but no start marker. *)
Definition unmarked_file : list string :=
  [ "G28 ; home" ++ LF;
    "T1" ++ LF;
    "G1 Xabc Y0 E1" ++ LF;
    "G1 X5 Y0 E2" ++ LF ].

(** A boundary with an odd number of points. *)
Definition three_points : list point :=
  [(0, 1, 0); (0, -1, 0); (5, 1, 0)]%float.

(** Two tracks that agree with [straight_track] on the first layer only. *)
Definition taller_track : list layer :=
  [[[(0, 0, 0); (10, 0, 0)]]; [[(0, 0, 0.2); (10, 0, 0.2); (10, 10, 0.2)]]]%float.

(** An instance with no track stored yet. *)
Definition no_layers : WatchDogLayers :=
  {| self_layers := []; self_secondary_layers := [] |}.

(** The tracks stored after reading [two_layer_print]. *)
Definition two_layers_read : WatchDogLayers :=
  match read_layers_from_file no_layers two_layer_print with
  | Py.Ok stored => stored
  | Py.Raise _ => no_layers
  end.

(** ** [watchdog.py]: comparing images

    An image is an array of shape (rows, columns, channels) of integers,
    given as the list of its rows. *)

Definition pixel : Type := list Z.
Definition image : Type := list (list pixel).

(** What dividing two Python integers can raise. *)
Inductive arithmetic_exn : Type :=
| ZeroDivisionError.

Inductive outcome (A : Type) : Type :=
| Returns (a : A)
| Throws (e : arithmetic_exn).
Arguments Returns {A} a.
Arguments Throws {A} e.

Definition integer_as_spec_float (n : Z) : spec_float :=
  match n with
  | Z0 => S754_zero false
  | Zpos p => S754_finite false p 0
  | Zneg p => S754_finite true p 0
  end.

(** The binary64 number nearest to [a / b], for [b] other than zero. *)
Definition nearest_quotient (a b : Z) : PrimFloat.float :=
  SF2Prim (SFdiv prec emax (integer_as_spec_float a) (integer_as_spec_float b)).

(** [a / b] on Python integers. *)
Definition true_divide (a b : Z) : outcome PrimFloat.float :=
  if (b =? 0)%Z then Throws ZeroDivisionError else Returns (nearest_quotient a b).

(** [np.array_equal] on two pixels: same number of channels, same values. *)
Definition array_equal (a b : pixel) : bool :=
  (List.length a =? List.length b)%nat &&
  forallb (fun channels => (fst channels =? snd channels)%Z) (combine a b).

(** [array[i, j]], [array.shape[0]] and [array.shape[1]]. *)
Definition pixel_at (array : image) (i j : nat) : pixel :=
  nth j (nth i array []) [].

Definition shape_0 (array : image) : nat := List.length array.

Definition shape_1 (array : image) : nat := List.length (nth 0 array []).

Section CompareImages.

(** The subtraction of the images' element type: plain subtraction for a
    wide signed type, subtraction modulo 256 for 8-bit channels. *)
Variable subtract : Z -> Z -> Z.

(** [numpy.mean] of the channels of one pixel. *)
Variable np_mean : pixel -> PrimFloat.float.

(** Line 180: [real - rendered], element by element, for two arrays of the
    same shape. *)
Definition array_difference (real rendered : image) : image :=
  map (fun rows =>
         map (fun pixels =>
                map (fun channels => subtract (fst channels) (snd channels))
                  (combine (fst pixels) (snd pixels)))
           (combine (fst rows) (snd rows)))
    (combine real rendered).

(** Lines 187-192: the body of the inner loop, on the pair of counters
    [(total_pixels_compared, pixels_below_threshold)]. *)
Definition compare_pixel (real difference : image) (empty_value : pixel)
    (threshold : PrimFloat.float) (i : nat) (counters : Z * Z) (j : nat)
  : Z * Z :=
  let '(total_pixels_compared, pixels_below_threshold) := counters in
  if array_equal (pixel_at real i j) empty_value then counters
  else
    ((total_pixels_compared + 1)%Z,
     if (np_mean (pixel_at difference i j) <? threshold)%float
     then (pixels_below_threshold + 1)%Z
     else pixels_below_threshold).

(** [WatchDog.compare_images]: lines 180-201. *)
Definition compare_images (real rendered : image) (empty_value : pixel)
    (threshold : PrimFloat.float) : outcome PrimFloat.float :=
  let difference := array_difference real rendered in
  let counters :=
    fold_left
      (fun counters i =>
         fold_left (compare_pixel real difference empty_value threshold i)
           (seq 0 (shape_1 difference)) counters)
      (seq 0 (shape_0 difference)) (0%Z, 0%Z) in
  true_divide (snd counters) (fst counters).

End CompareImages.

(** [numpy.mean] of integer channels whose sum is exact in binary64: the
    sum divided by the number of channels, NaN for no channel. *)
Definition mean_of_channels (values : pixel) : PrimFloat.float :=
  SF2Prim (SFdiv prec emax
             (integer_as_spec_float (fold_left Z.add values 0%Z))
             (integer_as_spec_float (Z.of_nat (List.length values)))).

(** Subtraction of 8-bit channels. *)
Definition subtract_uint8 (a b : Z) : Z := ((a - b) mod 256)%Z.

(** Line 164 of [test_compare_images], on one channel. *)
Definition blend_channel (real rendered : Z) : Z :=
  (3 * (real / 4) + rendered / 4)%Z.

(** [WatchDog.test_compare_images]: the image it hands to [io.imsave]. *)
Definition test_compare_images (real rendered : image) : image :=
  map (fun rows =>
         map (fun pixels =>
                map (fun channels => blend_channel (fst channels) (snd channels))
                  (combine (fst pixels) (snd pixels)))
           (combine (fst rows) (snd rows)))
    (combine real rendered).

(** Every channel of an image lies between 0 and [bound]. *)
Definition channels_within (bound : Z) (img : image) : Prop :=
  Forall (Forall (Forall (fun c => (0 <= c <= bound)%Z))) img.

(** Every row of the array has as many pixels as the first. *)
Definition rectangular (array : image) : Prop :=
  Forall (fun row => List.length row = shape_1 array) array.

(** Two arrays with as many rows, as many pixels in each row and as many
    channels in each pixel. *)
Definition same_shape (real rendered : image) : Prop :=
  Forall2 (Forall2 (fun p q : pixel => List.length p = List.length q))
    real rendered.

(** The positions [(i, j)] of the pixels of an array, row after row. *)
Definition positions (array : image) : list (nat * nat) :=
  list_prod (seq 0 (shape_0 array)) (seq 0 (shape_1 array)).

(** The pixel of the real image at a position is not the empty value. *)
Definition is_compared (real : image) (empty_value : pixel)
    (position : nat * nat) : bool :=
  negb (array_equal (pixel_at real (fst position) (snd position)) empty_value).

(** The channels of one pixel less those of another. *)
Definition pixel_difference (subtract : Z -> Z -> Z) (p q : pixel) : pixel :=
  map (fun channels => subtract (fst channels) (snd channels)) (combine p q).

(** The mean difference of the two images at a position is below the
    threshold. *)
Definition is_below (subtract : Z -> Z -> Z) (np_mean : pixel -> PrimFloat.float)
    (real rendered : image) (threshold : PrimFloat.float)
    (position : nat * nat) : bool :=
  (np_mean (pixel_difference subtract
              (pixel_at real (fst position) (snd position))
              (pixel_at rendered (fst position) (snd position)))
   <? threshold)%float.

(** How many elements of a list pass a test, as a Python integer. *)
Definition count_of {A : Type} (test : A -> bool) (l : list A) : Z :=
  Z.of_nat (List.length (filter test l)).

(** Two images of two by two pixels with three channels. *)
Definition photo : image :=
  [ [[10; 20; 30]; [0; 0; 0]]; [[255; 255; 255]; [12; 13; 14]] ]%Z.

Definition render : image :=
  [ [[11; 20; 29]; [9; 9; 9]]; [[250; 251; 252]; [0; 0; 0]] ]%Z.

(** ** The offset rule, in the words of the specification

    Section 4.2 of the specification, written out on the coordinates of the
    points for comparison with [get_corner_normals]; the quarter turns use
    the rotation by [np.pi/2] and [-np.pi/2] and the lengths the square root
    of the sum of the squares, as the sources do. *)

Section OffsetRule.

Variables np_cos np_sin np_square : PrimFloat.float -> PrimFloat.float.

Local Open Scope float_scope.

(** End point rule: the direction from [a] to [b], turned by 90 degrees and
    scaled to length [w]. *)
Definition end_point_rule (a b : point) (w : PrimFloat.float)
  : PrimFloat.float * PrimFloat.float :=
  let '(ax, ay, _) := a in
  let '(bx, by', _) := b in
  let dx := bx - ax in
  let dy := by' - ay in
  let tx := dx * np_cos (np_pi / 2) - dy * np_sin (np_pi / 2) in
  let ty := dx * np_sin (np_pi / 2) + dy * np_cos (np_pi / 2) in
  let m := sqrt (np_square tx + np_square ty) in
  (w * (tx / m), w * (ty / m)).

(** Interior point rule at [c], between [a] before it and [b] after it:
    [last_dir = c - a] turned by +90 degrees, [next_dir = c - b] turned by
    -90 degrees; one of them when they are exact negatives, their sum
    otherwise; then normalised and scaled to [w]. *)
Definition interior_point_rule (a c b : point) (w : PrimFloat.float)
  : PrimFloat.float * PrimFloat.float :=
  let '(ax, ay, _) := a in
  let '(cx, cy, _) := c in
  let '(bx, by', _) := b in
  let lx := cx - ax in
  let ly := cy - ay in
  let nx := cx - bx in
  let ny := cy - by' in
  let l1 := lx * np_cos (np_pi / 2) - ly * np_sin (np_pi / 2) in
  let l2 := lx * np_sin (np_pi / 2) + ly * np_cos (np_pi / 2) in
  let n1 := nx * np_cos (- np_pi / 2) - ny * np_sin (- np_pi / 2) in
  let n2 := nx * np_sin (- np_pi / 2) + ny * np_cos (- np_pi / 2) in
  let opposite := (l1 =? n1 * -1) && (l2 =? n2 * -1) in
  let s1 := if opposite then l1 else l1 + n1 in
  let s2 := if opposite then l2 else l2 + n2 in
  let m := sqrt (np_square s1 + np_square s2) in
  ((s1 / m) * w, (s2 / m) * w).

(** The normal at point [i] of a line of two points or more. *)
Definition offset_rule (line : polyline) (w : PrimFloat.float) (i : nat)
  : PrimFloat.float * PrimFloat.float :=
  let p := fun k => nth k line (0, 0, 0) in
  if (i =? 0)%nat then end_point_rule (p 0%nat) (p 1%nat) w
  else if (i =? List.length line - 1)%nat
  then end_point_rule (p (List.length line - 2)%nat) (p (List.length line - 1)%nat) w
  else interior_point_rule (p (i - 1)%nat) (p i) (p (i + 1)%nat) w.

End OffsetRule.

(** Lines that follow [open_segment] on the same layer and close it: one
    more extruding move, a travel move and the first move of the next
    layer. *)
Definition rest_of_layer : list string :=
  [ ("G1 X3 Y0 E3" ++ LF)%string; ("G0 X0 Y0" ++ LF)%string;
    ("G1 X5 Y0 Z0.4 E6" ++ LF)%string ].

(** The state after two moves of the first core, a change to the second and
    one move there: the active and the saved values all differ. *)
Definition dual_core_state : state :=
  match run 18 initial_state
          (open_segment ++ [("T1" ++ LF)%string; ("G1 X5 Y5 Z0.4 E3" ++ LF)%string])%list
  with
  | Py.Ok st => st
  | Py.Raise _ => initial_state
  end.

(** * Properties *)

(** ** [float] on sample operands *)

Example float_decimal : Py.float "0.2" = Py.Ok 0.2%float.
Proof. vm_compute. reflexivity. Qed.

Example float_line_end : Py.float ("1" ++ LF) = Py.Ok 1%float.
Proof. vm_compute. reflexivity. Qed.

Example float_negative : Py.float "-2" = Py.Ok (-2)%float.
Proof. vm_compute. reflexivity. Qed.

Example float_exponent : Py.float "-1_0.5e-1" = Py.Ok (-1.05)%float.
Proof. vm_compute. reflexivity. Qed.

Example float_overflow : Py.float "1e400" = Py.Ok infinity.
Proof. vm_compute. reflexivity. Qed.

Example float_nan : Py.float "-NaN" = Py.Ok nan.
Proof. vm_compute. reflexivity. Qed.

Example float_largest : Py.float "1.7976931348623157e308" = Py.Ok 0x1.fffffffffffffp+1023%float.
Proof. vm_compute. reflexivity. Qed.

Example float_smallest : Py.float "4.9e-324" = Py.Ok 0x1p-1074%float.
Proof. vm_compute. reflexivity. Qed.

Example float_empty : Py.float "" = Py.Raise Py.ValueError.
Proof. vm_compute. reflexivity. Qed.

Example float_letters : Py.float "abc" = Py.Raise Py.ValueError.
Proof. vm_compute. reflexivity. Qed.

Example float_two_dots : Py.float "1.2.3" = Py.Raise Py.ValueError.
Proof. vm_compute. reflexivity. Qed.

Example float_bare_exponent : Py.float "1e" = Py.Raise Py.ValueError.
Proof. vm_compute. reflexivity. Qed.

(** White space at the ends: the no-break space (160) and the next-line
    character (133) are stripped, the separators 28 to 31 are not. *)
Example float_no_break_space :
  Py.float (String "1" (String (ascii_of_nat 160) EmptyString)) = Py.Ok 1%float.
Proof. vm_compute. reflexivity. Qed.

Example float_next_line :
  Py.float (String "1" (String (ascii_of_nat 133) EmptyString)) = Py.Ok 1%float.
Proof. vm_compute. reflexivity. Qed.

Example float_file_separator :
  Py.float (String "1" (String (ascii_of_nat 28) EmptyString))
  = Py.Raise Py.ValueError.
Proof. vm_compute. reflexivity. Qed.

Example split_keeps_empty_fields :
  Py.split " " "G1  X1 " = ["G1"; ""; "X1"; ""].
Proof. reflexivity. Qed.

(** ** The parser *)

Lemma bind_ok {A B : Type} (m : Py.result A) (k : A -> Py.result B) (b : B) :
  Py.bind m k = Py.Ok b -> exists a, m = Py.Ok a /\ k a = Py.Ok b.
Proof.
  destruct m as [a | e]; simpl; intros H.
  - exists a. split; [reflexivity | exact H].
  - discriminate H.
Qed.

(** C1. On the end-to-end stream the parser returns two empty tracks: the
    layer that holds the polyline [[10,0,0.2],[10,10,0.2]] is still in the
    accumulator [one_lines] when the stream ends and is never appended to
    [one_layers], whose only entry is the discarded first layer.  The open
    polyline is the single point [0,0,0.2]. *)
Theorem scenario_returns_no_layer :
  parse_gcode_file scenario 0 = Py.Ok ([], []) /\
  exists st,
    run 0 initial_state scenario = Py.Ok st /\
    one_layers st = [[]] /\
    one_lines st = [[(10, 0, 0.2); (10, 10, 0.2)]]%float /\
    one_new_line st = [(0, 0, 0.2)]%float.
Proof.
  split; [vm_compute; reflexivity |].
  eexists. split; [vm_compute; reflexivity |].
  repeat split.
Qed.

Lemma process_line_unfold hd st raw :
  process_line hd st raw =
  let line := strip_comment raw in
  if String.eqb line "" then Py.Ok st
  else
    let st2 := start_marker line (tool_change line st) in
    if printing st2 && is_motion line then
      r <- motion hd line st2 ;; Py.Ok (fst r)
    else Py.Ok st2.
Proof.
  unfold process_line, process_line_flag. cbv zeta.
  destruct (String.eqb (strip_comment raw) ""); [reflexivity |].
  destruct (printing _ && is_motion _); [| reflexivity].
  destruct (motion hd _ _) as [[st3 flag] | e]; reflexivity.
Qed.

(** A property of states that the three kinds of recognised line preserve
    holds after any file that is read to its end. *)
Lemma run_invariant (P : state -> Prop) hd :
  (forall line st, P st -> P (tool_change line st)) ->
  (forall line st, P st -> P (start_marker line st)) ->
  (forall line st st' flag,
      P st -> motion hd line st = Py.Ok (st', flag) -> P st') ->
  forall file st st', P st -> run hd st file = Py.Ok st' -> P st'.
Proof.
  intros Htool Hmark Hmotion.
  induction file as [| raw rest IH]; intros st st' HP Hrun; simpl in Hrun.
  - injection Hrun as <-. exact HP.
  - apply bind_ok in Hrun. destruct Hrun as [st1 [Hstep Hrest]].
    apply (IH st1 st'); [| exact Hrest].
    rewrite process_line_unfold in Hstep. cbv zeta in Hstep.
    destruct (String.eqb (strip_comment raw) "").
    + injection Hstep as <-. exact HP.
    + assert (H2 : P (start_marker (strip_comment raw)
                        (tool_change (strip_comment raw) st)))
        by (apply Hmark, Htool, HP).
      destruct (printing _ && is_motion _).
      * apply bind_ok in Hstep. destruct Hstep as [[st3 flag] [Hm Heq]].
        simpl in Heq. injection Heq as <-.
        exact (Hmotion _ _ _ _ H2 Hm).
      * injection Hstep as <-. exact H2.
Qed.

(** [last_e] is assigned only by the tool change, which exchanges it with the
    saved copy: both stay at their initial value whatever the file holds. *)
Lemma last_e_stays_zero hd file st :
  run hd initial_state file = Py.Ok st ->
  last_e st = 0%float /\ save_last_e (core_switch_save st) = 0%float.
Proof.
  apply (run_invariant
           (fun s => last_e s = 0%float /\
                     save_last_e (core_switch_save s) = 0%float)).
  - intros line s [Ha Hb]. unfold tool_change, switch_core.
    destruct (_ || _); [| split; assumption].
    destruct (Py.slice_from 1 line); [split; assumption |].
    destruct (negb _); simpl; split; assumption.
  - intros line s [Ha Hb]. unfold start_marker.
    destruct (String.eqb _ _); simpl; split; assumption.
  - intros line s s' flag [Ha Hb] Hm. open_motion Hm.
    split_ifs; simpl; split; assumption.
  - split; reflexivity.
Qed.

(** The active core is always 0 or 1. *)
Lemma printcore_is_0_or_1 hd file st :
  run hd initial_state file = Py.Ok st ->
  printcore st = 0%Z \/ printcore st = 1%Z.
Proof.
  apply (run_invariant (fun s => printcore s = 0%Z \/ printcore s = 1%Z)).
  - intros line s H. unfold tool_change.
    destruct (String.eqb (Py.slice_to 2 line) "T0") eqn:H0;
      [| destruct (String.eqb (Py.slice_to 2 line) "T1") eqn:H1; [| exact H]].
    + apply String.eqb_eq in H0.
      destruct line as [| a [| b rest]]; try discriminate H0.
      injection H0 as -> ->. simpl.
      destruct (negb _); [left; reflexivity | exact H].
    + apply String.eqb_eq in H1.
      destruct line as [| a [| b rest]]; try discriminate H1.
      injection H1 as -> ->. simpl.
      destruct (negb _); [right; reflexivity | exact H].
  - intros line s H. unfold start_marker.
    destruct (String.eqb _ _); exact H.
  - intros line s s' flag H Hm. open_motion Hm.
    split_ifs; exact H.
  - left. reflexivity.
Qed.

(** C2. The moves' E operands 1, -2, -1, 0, 2 differ by +1, -3, +1, +1, +2,
    for which the balance rule gives the flags true, false, false, false,
    true.  The parser subtracts a [last_e] that no motion command ever
    assigns, so it feeds the operands themselves to the rule and the last
    move is not counted as extruding. *)
Theorem retraction_flags_of_parser :
  differences 0 e_operands = [1; -3; 1; 1; 2]%float /\
  balance_flags 0 (differences 0 e_operands) = [true; false; false; false; true] /\
  extrusion_flags 0 initial_state retraction_moves
    = Py.Ok [true; false; false; false; false] /\
  extrusion_flags 0 initial_state retraction_moves
    = Py.Ok (balance_flags 0 e_operands).
Proof.
  repeat split; vm_compute; reflexivity.
Qed.

(** *** Tool changes *)

Lemma tool_line_text core raw :
  tool_line core raw = true ->
  exists rest,
    strip_comment raw =
    String "T" (String (if (core =? 0)%Z then "0" else "1")%char rest).
Proof.
  unfold tool_line. intros H. apply String.eqb_eq in H.
  destruct (strip_comment raw) as [| a [| b rest]]; simpl in H;
    destruct (core =? 0)%Z; try discriminate H;
    injection H as -> ->; eexists; reflexivity.
Qed.

(** A tool line for another core than the active one exchanges the active
    values with the saved ones and touches nothing else. *)
Lemma tool_line_switches hd st raw core :
  core = 0%Z \/ core = 1%Z ->
  tool_line core raw = true ->
  core <> printcore st ->
  process_line hd st raw = Py.Ok (switch_core core st).
Proof.
  intros Hcore Hline Hneq.
  destruct (tool_line_text _ _ Hline) as [rest Htext].
  rewrite process_line_unfold, Htext. cbv zeta.
  assert (Hne : (core =? printcore st)%Z = false) by (apply Z.eqb_neq; exact Hneq).
  destruct Hcore as [-> | ->]; cbn;
    unfold tool_change; cbn; unfold Py.int_of_digit, Py.digit_value; cbn.
  - change (Z.of_nat (Pos.to_nat 48) - 48)%Z with 0%Z.
    rewrite Hne, Bool.andb_false_r. reflexivity.
  - change (Z.of_nat (Pos.to_nat 49) - 48)%Z with 1%Z.
    rewrite Hne, Bool.andb_false_r. reflexivity.
Qed.

Lemma switch_core_twice st core :
  switch_core (printcore st) (switch_core core st) = st.
Proof.
  destruct st as [a b c d e f g h i j k l [s0 s1 s2 s3 s4 s5] m n].
  reflexivity.
Qed.

(** C6. A tool line that selects the other core gives the active core the six
    saved values and saves the six active ones, leaving the tracks, the
    [printing] flag and nothing else changed; a tool line that selects the
    first core again, with no line in between, gives back the very state the
    parser started from. *)
Theorem tool_change_round_trip hd st raw_out raw_back other :
  (printcore st = 0%Z /\ other = 1%Z) \/ (printcore st = 1%Z /\ other = 0%Z) ->
  tool_line other raw_out = true ->
  tool_line (printcore st) raw_back = true ->
  exists st',
    process_line hd st raw_out = Py.Ok st' /\
    printcore st' = other /\
    active_values st' = core_switch_save st /\
    core_switch_save st' = active_values st /\
    (one_layers st', one_lines st', one_new_line st')
      = (one_layers st, one_lines st, one_new_line st) /\
    (two_layers st', two_lines st', two_new_line st')
      = (two_layers st, two_lines st, two_new_line st) /\
    printing st' = printing st /\
    process_line hd st' raw_back = Py.Ok st.
Proof.
  intros Hcores Hout Hback.
  exists (switch_core other st).
  assert (Hother : other = 0%Z \/ other = 1%Z) by (destruct Hcores as [[_ ->] | [_ ->]]; auto).
  assert (Hneq : other <> printcore st) by (destruct Hcores as [[-> ->] | [-> ->]]; discriminate).
  split; [apply tool_line_switches; assumption |].
  split; [reflexivity |].
  split; [unfold active_values; simpl; destruct (core_switch_save st); reflexivity |].
  split; [reflexivity |].
  split; [reflexivity |].
  split; [reflexivity |].
  split; [reflexivity |].
  rewrite (tool_line_switches hd (switch_core other st) raw_back (printcore st)).
  - rewrite switch_core_twice. reflexivity.
  - destruct Hcores as [[-> _] | [-> _]]; auto.
  - exact Hback.
  - simpl. intros H. apply Hneq. symmetry. exact H.
Qed.

(** In a print with two cores, after each has moved: the six active values
    and the six saved ones differ, and the two tool lines exchange them and
    exchange them back. *)
Lemma tool_change_round_trip_witness :
  printcore dual_core_state = 1%Z /\
  active_values dual_core_state
  = {| save_x := 23; save_y := 5; save_z := 0.4; save_last_extruded_z := 0.4;
       save_last_e := 0; save_e_change := 3 |} /\
  core_switch_save dual_core_state
  = {| save_x := 2; save_y := 0; save_z := 0.2; save_last_extruded_z := 0.2;
       save_last_e := 0; save_e_change := 2 |} /\
  exists st',
    process_line 18 dual_core_state ("T0" ++ LF) = Py.Ok st' /\
    printcore st' = 0%Z /\
    active_values st' = core_switch_save dual_core_state /\
    core_switch_save st' = active_values dual_core_state /\
    (one_layers st', one_lines st', one_new_line st')
      = (one_layers dual_core_state, one_lines dual_core_state,
         one_new_line dual_core_state) /\
    (two_layers st', two_lines st', two_new_line st')
      = (two_layers dual_core_state, two_lines dual_core_state,
         two_new_line dual_core_state) /\
    printing st' = printing dual_core_state /\
    process_line 18 st' ("T1 ; back to the second core" ++ LF)
      = Py.Ok dual_core_state.
Proof.
  split; [vm_compute; reflexivity |].
  split; [vm_compute; reflexivity |].
  split; [vm_compute; reflexivity |].
  apply (tool_change_round_trip 18 dual_core_state ("T0" ++ LF)
           ("T1 ; back to the second core" ++ LF) 0%Z).
  - right. split; vm_compute; reflexivity.
  - reflexivity.
  - vm_compute. reflexivity.
Defined.

(** *** Stored polylines *)

Lemma two_points_or_more_snoc (l : layer) (line : polyline) :
  two_points_or_more l -> 2 <= List.length line ->
  two_points_or_more (l ++ [line])%list.
Proof.
  intros Hl Hline. apply Forall_app. split; [exact Hl |].
  constructor; [exact Hline | constructor].
Qed.

Lemma layers_snoc (ls : list layer) (l : layer) :
  Forall two_points_or_more ls -> two_points_or_more l ->
  Forall two_points_or_more (ls ++ [l])%list.
Proof.
  intros Hls Hl. apply Forall_app. split; [exact Hls |].
  constructor; [exact Hl | constructor].
Qed.

(** Closed layers and the layer under construction hold no short polyline,
    for either core, at any point of a run. *)
Lemma stored_lines_invariant hd file st :
  run hd initial_state file = Py.Ok st ->
  (Forall two_points_or_more (one_layers st) /\ two_points_or_more (one_lines st)) /\
  (Forall two_points_or_more (two_layers st) /\ two_points_or_more (two_lines st)).
Proof.
  apply (run_invariant
           (fun s =>
              (Forall two_points_or_more (one_layers s) /\
               two_points_or_more (one_lines s)) /\
              (Forall two_points_or_more (two_layers s) /\
               two_points_or_more (two_lines s)))).
  - intros line s H. unfold tool_change.
    destruct (_ || _); [| exact H].
    destruct (Py.slice_from 1 line); [exact H |].
    destruct (negb _); exact H.
  - intros line s H. unfold start_marker.
    destruct (String.eqb _ _); exact H.
  - intros line s s' flag [[H1 H2] [H3 H4]] Hm. open_motion Hm.
    destruct (_ && _); destruct (printcore s =? 0)%Z; simpl;
      try destruct (negb _); simpl;
      repeat split; try assumption;
      try (apply layers_snoc; assumption);
      try (constructor).
    + destruct (1 <? List.length (one_new_line s))%nat eqn:Hlen; [| assumption].
      apply two_points_or_more_snoc; [assumption |].
      apply Nat.ltb_lt in Hlen. lia.
    + destruct (1 <? List.length (two_new_line s))%nat eqn:Hlen; [| assumption].
      apply two_points_or_more_snoc; [assumption |].
      apply Nat.ltb_lt in Hlen. lia.
  - repeat split; constructor.
Qed.

(** C7. Whatever the file and the hotend distance, when the parser returns,
    every polyline of every layer of both returned tracks has at least two
    points. *)
Theorem returned_polylines_have_two_points file hd one two :
  parse_gcode_file file hd = Py.Ok (one, two) ->
  Forall two_points_or_more one /\ Forall two_points_or_more two.
Proof.
  unfold parse_gcode_file. intros H.
  apply bind_ok in H. destruct H as [st [Hrun Hret]].
  injection Hret as <- <-.
  destruct (stored_lines_invariant _ _ _ Hrun) as [[H1 _] [H2 _]].
  split.
  - destruct (one_layers st); [constructor | inversion H1; assumption].
  - destruct (two_layers st); [constructor | inversion H2; assumption].
Qed.

Lemma returned_polylines_have_two_points_witness :
  Forall two_points_or_more
    [ [[(1, 0, 0.2); (2, 0, 0.2)]]; [[(1, 0, 0.4); (2, 0, 0.4)]] ]%float /\
  Forall two_points_or_more [].
Proof.
  apply (returned_polylines_have_two_points two_layer_print 18).
  vm_compute. reflexivity.
Defined.

(** *** Motion lines *)

Lemma motion_line_text line :
  is_motion line = true ->
  exists d rest, line = String "G" (String d rest) /\ (d = "0" \/ d = "1")%char.
Proof.
  unfold is_motion. intros H. apply Bool.orb_true_iff in H.
  destruct line as [| a [| b rest]];
    destruct H as [H | H]; apply String.eqb_eq in H; simpl in H;
    try discriminate H; injection H as -> ->; eauto.
Qed.

(** A motion line is neither empty, nor a tool line, nor the start marker. *)
Lemma motion_line_flag hd st raw :
  is_motion (strip_comment raw) = true ->
  printing st = true ->
  process_line_flag hd st raw =
  (r <- motion hd (strip_comment raw) st ;; Py.Ok (fst r, Some (snd r))).
Proof.
  intros Hmotion Hprinting.
  unfold process_line_flag. cbv zeta.
  destruct (motion_line_text _ Hmotion) as [d [rest [Htext Hd]]].
  rewrite Hmotion, Htext.
  assert (Hsame : start_marker (String "G" (String d rest))
                    (tool_change (String "G" (String d rest)) st) = st)
    by (unfold start_marker, tool_change; destruct Hd as [-> | ->]; reflexivity).
  rewrite Hsame, Hprinting. reflexivity.
Qed.

Lemma motion_line_only_moves hd st raw :
  is_motion (strip_comment raw) = true ->
  printing st = true ->
  process_line hd st raw =
  (r <- motion hd (strip_comment raw) st ;; Py.Ok (fst r)).
Proof.
  intros Hmotion Hprinting.
  unfold process_line. rewrite (motion_line_flag _ _ _ Hmotion Hprinting).
  destruct (motion hd (strip_comment raw) st) as [[st' flag] | e]; reflexivity.
Qed.

(** The balance and the flag a motion line leaves, read off [motion]. *)
Lemma motion_e_change hd line st st' flag x y z e :
  read_parameters hd (printcore st) (tl (Py.split " " line))
    (current_x st, current_y st, current_z st, last_e st) = Py.Ok (x, y, z, e) ->
  motion hd line st = Py.Ok (st', flag) ->
  e_change st' =
    (if mentions_extrusion line
     then update_e_change (e_change st) e (last_e st)
     else e_change st) /\
  flag = mentions_extrusion line && (0 <? e_change st')%float.
Proof.
  intros Hread Hm. unfold motion in Hm. rewrite Hread in Hm. simpl in Hm.
  injection Hm as <- <-.
  destruct (mentions_extrusion line); simpl.
  - destruct (0 <? update_e_change (e_change st) e (last_e st))%float eqn:Hpos;
      split_ifs; simpl; rewrite ?Hpos; split; reflexivity.
  - split_ifs; simpl; split; reflexivity.
Qed.

(** On every motion line of every file that mentions E and an axis, the
    difference the parser feeds to the balance rule is the E operand minus
    zero, and the move is flagged as extruding exactly when the balance it
    leaves is positive. *)
Lemma extrusion_dif_is_the_operand hd file st raw x y z e :
  run hd initial_state file = Py.Ok st ->
  printing st = true ->
  is_motion (strip_comment raw) = true ->
  move_target hd st raw = Py.Ok (x, y, z, e) ->
  mentions_extrusion (strip_comment raw) = true ->
  exists st',
    process_line_flag hd st raw = Py.Ok (st', Some (0 <? e_change st')%float) /\
    e_change st' =
      (if (e_change st <=? 0)%float then (e_change st + (e - 0))%float
       else (e - 0)%float).
Proof.
  intros Hrun Hprinting Hmotion Htarget Hmentions.
  destruct (last_e_stays_zero _ _ _ Hrun) as [Hzero _].
  rewrite (motion_line_flag _ _ _ Hmotion Hprinting).
  unfold move_target in Htarget.
  destruct (motion hd (strip_comment raw) st) as [[st' flag] | err] eqn:Hm.
  - destruct (motion_e_change _ _ _ _ _ _ _ _ _ Htarget Hm) as [Hbalance Hflag].
    rewrite Hmentions in Hbalance, Hflag. simpl in Hflag.
    unfold update_e_change in Hbalance. rewrite Hzero in Hbalance.
    exists st'. simpl. rewrite Hflag. split; [reflexivity | exact Hbalance].
  - unfold motion in Hm. rewrite Htarget in Hm. discriminate Hm.
Qed.

(** C10. When a motion line extrudes at a z other than the last extruded
    one, the active core's layer under construction is appended to its
    closed layers as it stands, without the open polyline; the new layer
    starts empty and its open polyline holds the point of this move alone.
    The points the open polyline held are in neither layer.  The other
    core's accumulators do not change. *)
Theorem layer_change_drops_open_polyline hd st raw x y z e :
  printing st = true ->
  is_motion (strip_comment raw) = true ->
  move_target hd st raw = Py.Ok (x, y, z, e) ->
  move_extrudes st raw e = true ->
  (z =? last_extruded_z st)%float = false ->
  exists st',
    process_line hd st raw = Py.Ok st' /\
    active_layers st' = (active_layers st ++ [active_lines st])%list /\
    active_lines st' = [] /\
    active_new_line st' = [(x, y, z)] /\
    idle_tracks st' = idle_tracks st /\
    printcore st' = printcore st.
Proof.
  intros Hprinting Hmotion Htarget Hextrudes Hz.
  rewrite (motion_line_only_moves _ _ _ Hmotion Hprinting).
  unfold move_target in Htarget. unfold move_extrudes in Hextrudes.
  unfold motion. rewrite Htarget. simpl.
  apply Bool.andb_true_iff in Hextrudes. destruct Hextrudes as [Hmentions Hpositive].
  rewrite Hmentions. simpl. rewrite Hpositive, Hz. simpl.
  unfold active_layers, active_lines, active_new_line, idle_tracks.
  eexists. split; [reflexivity |].
  destruct (printcore st =? 0)%Z eqn:Hcore; simpl; rewrite Hcore;
    repeat split; reflexivity.
Qed.

Lemma layer_change_drops_open_polyline_witness :
  active_new_line mid_layer_state = [(1, 0, 0.2); (2, 0, 0.2)]%float /\
  exists st',
    process_line 0 mid_layer_state ("G1 X3 Y0 Z0.4 E3" ++ LF) = Py.Ok st' /\
    active_layers st' =
      (active_layers mid_layer_state ++ [active_lines mid_layer_state])%list /\
    active_lines st' = [] /\
    active_new_line st' = [(3, 0, 0.4)]%float /\
    idle_tracks st' = idle_tracks mid_layer_state /\
    printcore st' = printcore mid_layer_state.
Proof.
  split; [vm_compute; reflexivity |].
  apply (layer_change_drops_open_polyline 0 mid_layer_state
           ("G1 X3 Y0 Z0.4 E3" ++ LF) 3 0 0.4 3);
    vm_compute; reflexivity.
Defined.

(** *** Malformed operands and unrecognised lines *)

Lemma run_app hd (before after : list string) :
  forall st,
    run hd st (before ++ after)%list =
    (st' <- run hd st before ;; run hd st' after).
Proof.
  induction before as [| raw rest IH]; intros st; simpl; [reflexivity |].
  destruct (process_line hd st raw) as [st1 | e]; simpl; [apply IH | reflexivity].
Qed.

(** One malformed operand among the parameters makes the loop over the
    parameters raise, wherever it stands. *)
Lemma read_parameters_raises hd core p :
  malformed_operand p = true ->
  forall parameters new,
    In p parameters ->
    read_parameters hd core parameters new = Py.Raise Py.ValueError.
Proof.
  intros Hbad. induction parameters as [| q rest IH]; intros new Hin.
  - destruct Hin.
  - assert (Hrest : q <> p -> forall new',
               read_parameters hd core rest new' = Py.Raise Py.ValueError).
    { intros Hneq new'. apply IH. destruct Hin as [Heq | Hin]; [contradiction | exact Hin]. }
    destruct q as [| letter number].
    + simpl. apply Hrest. intros <-. discriminate Hbad.
    + destruct new as [[[new_x new_y] new_z] new_e]. simpl.
      destruct (String.string_dec (String letter number) p) as [Heq | Hneq].
      * subst p. simpl in Hbad.
        destruct (Py.float number) as [v | []]; [rewrite Bool.andb_false_r in Hbad; discriminate Hbad |].
        rewrite Bool.andb_true_r in Hbad.
        destruct (Ascii.eqb letter "X"); [reflexivity |].
        destruct (Ascii.eqb letter "Y"); [reflexivity |].
        destruct (Ascii.eqb letter "Z"); [reflexivity |].
        destruct (Ascii.eqb letter "E"); [reflexivity | discriminate Hbad].
      * specialize (Hrest Hneq).
        destruct (Py.float number) as [v | []];
          destruct (Ascii.eqb letter "X"); simpl; try reflexivity; try apply Hrest;
          destruct (Ascii.eqb letter "Y"); simpl; try reflexivity; try apply Hrest;
          destruct (Ascii.eqb letter "Z"); simpl; try reflexivity; try apply Hrest;
          destruct (Ascii.eqb letter "E"); simpl; try reflexivity; apply Hrest.
Qed.

Lemma unrecognised_line_is_skipped hd st raw :
  recognised (strip_comment raw) = false ->
  process_line hd st raw = Py.Ok st.
Proof.
  unfold recognised. intros H.
  apply Bool.orb_false_iff in H. destruct H as [H Hmotion].
  apply Bool.orb_false_iff in H. destruct H as [Htool Hmarker].
  rewrite process_line_unfold. cbv zeta.
  destruct (String.eqb (strip_comment raw) ""); [reflexivity |].
  unfold tool_change, start_marker.
  rewrite Htool, Hmarker, Hmotion, Bool.andb_false_r. reflexivity.
Qed.

(** X21. Take any line of any file and let [st] be the state the parser
    reaches just before it.
    If the line is a motion line read while [printing] and one of its
    parameters is a malformed operand, the parse of the whole file raises
    [ValueError] and returns nothing.  If the text of the line starts with
    none of [T0], [T1], [M205], [G0], [G1], the line leaves the state as it
    is, and the parse gives what it gives on the file without that line. *)
Theorem malformed_operand_fatal_unrecognised_line_skipped
    hd before raw after st :
  run hd initial_state before = Py.Ok st ->
  (printing st = true ->
   is_motion (strip_comment raw) = true ->
   (exists p, In p (tl (Py.split " " (strip_comment raw))) /\
              malformed_operand p = true) ->
   parse_gcode_file (before ++ raw :: after)%list hd = Py.Raise Py.ValueError) /\
  (recognised (strip_comment raw) = false ->
   process_line hd st raw = Py.Ok st /\
   parse_gcode_file (before ++ raw :: after)%list hd
     = parse_gcode_file (before ++ after)%list hd).
Proof.
  intros Hbefore. split.
  - intros Hprinting Hmotion [p [Hin Hbad]].
    unfold parse_gcode_file. rewrite run_app, Hbefore. simpl.
    rewrite (motion_line_only_moves _ _ _ Hmotion Hprinting).
    unfold motion.
    rewrite (read_parameters_raises hd (printcore st) p Hbad _ _ Hin).
    reflexivity.
  - intros Hskip.
    pose proof (unrecognised_line_is_skipped hd st raw Hskip) as Hsame.
    split; [exact Hsame |].
    unfold parse_gcode_file. rewrite !run_app, Hbefore. simpl.
    rewrite Hsame. reflexivity.
Qed.

Lemma malformed_operand_fatal_unrecognised_line_skipped_witness :
  (parse_gcode_file (open_segment ++ ("G1 X3 Y1.2.3 E3" ++ LF)%string
                       :: [("G1 X4 Y0 E4" ++ LF)%string])%list 0
   = Py.Raise Py.ValueError) /\
  (process_line 0 mid_layer_state ("M104 S210 ; heat up" ++ LF)%string
   = Py.Ok mid_layer_state /\
   parse_gcode_file (open_segment ++ ("M104 S210 ; heat up" ++ LF)%string
                       :: [("G1 X4 Y0 E4" ++ LF)%string])%list 0
   = parse_gcode_file (open_segment ++ [("G1 X4 Y0 E4" ++ LF)%string])%list 0).
Proof.
  split.
  - apply (malformed_operand_fatal_unrecognised_line_skipped 0 open_segment
             ("G1 X3 Y1.2.3 E3" ++ LF)%string [("G1 X4 Y0 E4" ++ LF)%string] mid_layer_state).
    + vm_compute. reflexivity.
    + reflexivity.
    + reflexivity.
    + exists "Y1.2.3". split; [vm_compute; auto | vm_compute; reflexivity].
  - apply (malformed_operand_fatal_unrecognised_line_skipped 0 open_segment
             ("M104 S210 ; heat up" ++ LF)%string [("G1 X4 Y0 E4" ++ LF)%string] mid_layer_state).
    + vm_compute. reflexivity.
    + reflexivity.
Defined.

(** C9. A line whose command code is not a recognised one is not always
    ignored.  The command code of [G10] is none of [T0], [T1], [M205], [G0],
    [G1], yet the test of line 184 looks at the first two characters only
    (the comments of lines 183 and 193 speak of G0 or G1): the line is processed as a
    motion command without operands, which commits the open polyline and
    starts a new one, so the parser state changes, and the file with the
    line gives two polylines where the file without it gives one. *)
Theorem command_code_G10_is_processed :
  command_code ("G10" ++ LF) = "G10" /\
  ~ In (command_code ("G10" ++ LF)) recognised_codes /\
  run 0 initial_state open_segment = Py.Ok mid_layer_state /\
  (exists st',
     process_line 0 mid_layer_state ("G10" ++ LF) = Py.Ok st' /\
     one_lines mid_layer_state = [] /\
     one_new_line mid_layer_state = [(1, 0, 0.2); (2, 0, 0.2)]%float /\
     one_lines st' = [[(1, 0, 0.2); (2, 0, 0.2)]]%float /\
     one_new_line st' = [(2, 0, 0.2)]%float /\
     st' <> mid_layer_state) /\
  parse_gcode_file (open_segment ++ ("G10" ++ LF)%string :: rest_of_layer)%list 0
  = Py.Ok ([[ [(1, 0, 0.2); (2, 0, 0.2)]; [(2, 0, 0.2); (3, 0, 0.2)] ]]%float, []) /\
  parse_gcode_file (open_segment ++ rest_of_layer)%list 0
  = Py.Ok ([[ [(1, 0, 0.2); (2, 0, 0.2); (3, 0, 0.2)] ]]%float, []).
Proof.
  split; [reflexivity |].
  split.
  { vm_compute. intros H. repeat (destruct H as [H | H]; [discriminate H |]). exact H. }
  split; [vm_compute; reflexivity |].
  split.
  { eexists. split; [vm_compute; reflexivity |].
    repeat split.
    intros H. apply (f_equal one_lines) in H. discriminate H. }
  split; vm_compute; reflexivity.
Qed.

(** ** Corner normals *)

Section CornerNormalFacts.

Variables np_cos np_sin np_square : PrimFloat.float -> PrimFloat.float.

(** The loop of lines 52-97 appends one pair per index, in order. *)
Lemma interior_loop line width (indices : list nat) :
  forall result,
    fold_left (append_corner np_cos np_sin np_square line width) indices result =
    (result ++
     flat_map (fun i =>
                 [fst (add_vector_bi (interior_normal np_cos np_sin np_square line width i)
                         (item line i));
                  snd (add_vector_bi (interior_normal np_cos np_sin np_square line width i)
                         (item line i))])
       indices)%list.
Proof.
  induction indices as [| i rest IH]; intros result; simpl.
  - rewrite app_nil_r. reflexivity.
  - rewrite IH. unfold append_corner. rewrite <- app_assoc. reflexivity.
Qed.

Lemma pairs_length {A : Type} (f g : nat -> A) (indices : list nat) :
  List.length (flat_map (fun i => [f i; g i]) indices) = 2 * List.length indices.
Proof.
  induction indices as [| i rest IH]; simpl; [reflexivity | rewrite IH; lia].
Qed.

Lemma pairs_nth {A : Type} (f g : nat -> A) :
  forall count start j,
    j < count ->
    nth_error (flat_map (fun i => [f i; g i]) (seq start count)) (2 * j)
      = Some (f (start + j)) /\
    nth_error (flat_map (fun i => [f i; g i]) (seq start count)) (2 * j + 1)
      = Some (g (start + j)).
Proof.
  induction count as [| count IH]; intros start j Hj; [lia |].
  destruct j as [| j].
  - simpl. rewrite Nat.add_0_r. split; reflexivity.
  - replace (2 * S j) with (S (S (2 * j))) by lia.
    replace (start + S j) with (S start + j) by lia.
    simpl. apply IH. lia.
Qed.

(** The points at positions 2*i and 2*i+1 are point i moved by plus and by
    minus the vector the sources compute at i. *)
Lemma corner_pairs line width :
  2 <= List.length line ->
  List.length (get_corner_normals np_cos np_sin np_square line width) = 2 * List.length line /\
  forall i, i < List.length line ->
    let '(x, y, z) := item line i in
    let '(nx, ny) := corner_normal np_cos np_sin np_square line width i in
    nth_error (get_corner_normals np_cos np_sin np_square line width) (2 * i) = Some (x + nx, y + ny, z)%float /\
    nth_error (get_corner_normals np_cos np_sin np_square line width) (2 * i + 1) = Some (x - nx, y - ny, z)%float.
Proof.
  intros Hlen. unfold get_corner_normals. cbv zeta.
  assert (Hlong : (1 <? List.length line)%nat = true) by (apply Nat.ltb_lt; lia).
  rewrite Hlong, interior_loop.
  set (inner := flat_map _ (seq 1 (List.length line - 2))).
  assert (Hinner : List.length inner = 2 * (List.length line - 2))
    by (subst inner; rewrite pairs_length, length_seq; reflexivity).
  split.
  - rewrite !length_app, Hinner. simpl. lia.
  - intros i Hi. unfold corner_normal.
    destruct (item line i) as [[x y] z] eqn:Hpoint.
    destruct (Nat.eq_dec i 0) as [-> | Hfirst].
    + simpl Nat.eqb. cbv iota.
      destruct (first_normal np_cos np_sin np_square line width) as [nx ny].
      rewrite Hpoint. simpl. split; reflexivity.
    + assert (Hnz : (i =? 0)%nat = false) by (apply Nat.eqb_neq; exact Hfirst).
      rewrite Hnz.
      destruct (Nat.eq_dec i (List.length line - 1)) as [Hlast | Hmiddle].
      * assert (Heq : (i =? List.length line - 1)%nat = true)
          by (apply Nat.eqb_eq; exact Hlast).
        rewrite Heq.
        destruct (end_normal np_cos np_sin np_square line width) as [nx ny].
        rewrite <- Hlast, Hpoint.
        simpl add_vector_bi. cbv beta iota. simpl fst. simpl snd.
        split.
        -- rewrite nth_error_app2; rewrite length_app, Hinner; simpl List.length; [| lia].
           replace (2 * i - (2 + 2 * (List.length line - 2))) with 0 by lia.
           reflexivity.
        -- rewrite nth_error_app2; rewrite length_app, Hinner; simpl List.length; [| lia].
           replace (2 * i + 1 - (2 + 2 * (List.length line - 2))) with 1 by lia.
           reflexivity.
      * assert (Hne : (i =? List.length line - 1)%nat = false)
          by (apply Nat.eqb_neq; exact Hmiddle).
        rewrite Hne.
        destruct (interior_normal np_cos np_sin np_square line width i) as [nx ny] eqn:Hnormal.
        destruct (pairs_nth
                    (fun i => fst (add_vector_bi (interior_normal np_cos np_sin np_square line width i)
                                     (item line i)))
                    (fun i => snd (add_vector_bi (interior_normal np_cos np_sin np_square line width i)
                                     (item line i)))
                    (List.length line - 2) 1 (i - 1)) as [Heven Hodd]; [lia |].
        fold inner in Heven, Hodd.
        replace (1 + (i - 1)) with i in Heven, Hodd by lia.
        rewrite Hnormal, Hpoint in Heven, Hodd. simpl in Heven, Hodd.
        split.
        -- rewrite nth_error_app1 by (rewrite length_app, Hinner; simpl; lia).
           rewrite nth_error_app2 by (simpl; lia).
           simpl List.length.
           replace (2 * i - 2) with (2 * (i - 1)) by lia. exact Heven.
        -- rewrite nth_error_app1 by (rewrite length_app, Hinner; simpl; lia).
           rewrite nth_error_app2 by (simpl; lia).
           simpl List.length.
           replace (2 * i + 1 - 2) with (2 * (i - 1) + 1) by lia. exact Hodd.
Qed.

(** The vector the sources compute at [i] is the one the offset rule of the
    specification gives. *)
Lemma corner_normal_is_offset_rule line width i :
  corner_normal np_cos np_sin np_square line width i
  = offset_rule np_cos np_sin np_square line width i.
Proof.
  unfold corner_normal, offset_rule.
  destruct (i =? 0)%nat.
  - unfold first_normal, end_point_rule, item, scale_vector, rotate_vector,
      xy_difference.
    destruct (nth 0 line (0, 0, 0)%float) as [[ax ay] az].
    destruct (nth 1 line (0, 0, 0)%float) as [[bx by'] bz].
    reflexivity.
  - destruct (i =? List.length line - 1)%nat.
    + unfold end_normal, end_point_rule, item, scale_vector, rotate_vector,
        xy_difference. cbv zeta.
      destruct (nth (List.length line - 2) line (0, 0, 0)%float) as [[ax ay] az].
      destruct (nth (List.length line - 1) line (0, 0, 0)%float) as [[bx by'] bz].
      reflexivity.
    + unfold interior_normal, interior_point_rule, magnitude_at,
        combined_normal, normals_cancel, last_normal_at, next_normal_at, item,
        rotate_vector, xy_difference. cbv zeta.
      destruct (nth (i - 1) line (0, 0, 0)%float) as [[ax ay] az].
      destruct (nth i line (0, 0, 0)%float) as [[cx cy] cz].
      destruct (nth (i + 1) line (0, 0, 0)%float) as [[bx by'] bz].
      cbn [fst snd].
      destruct (_ && _)%bool; reflexivity.
Qed.

(** C5. For a line of N >= 2 points and any half-width w,
    [get_corner_normals] returns 2*N points; the points at positions 2*i and
    2*i+1 are point i of the line moved, in x and y, by plus and by minus
    the normal the offset rule of the specification gives at i (the end
    point rule at the first and the last point, the interior point rule in
    between), and both keep the z of point i. *)
Theorem corner_normals_offset_each_point line w :
  2 <= List.length line ->
  List.length (get_corner_normals np_cos np_sin np_square line w)
    = 2 * List.length line /\
  forall i, i < List.length line ->
    forall x y z, nth i line (0, 0, 0)%float = (x, y, z) ->
    forall nx ny, offset_rule np_cos np_sin np_square line w i = (nx, ny) ->
    nth_error (get_corner_normals np_cos np_sin np_square line w) (2 * i)
      = Some (x + nx, y + ny, z)%float /\
    nth_error (get_corner_normals np_cos np_sin np_square line w) (2 * i + 1)
      = Some (x - nx, y - ny, z)%float.
Proof.
  intros Hlen. destruct (corner_pairs line w Hlen) as [Hcount Hpairs].
  split; [exact Hcount |].
  intros i Hi x y z Hpoint nx ny Hnormal.
  specialize (Hpairs i Hi). unfold item in Hpairs.
  rewrite Hpoint, corner_normal_is_offset_rule, Hnormal in Hpairs.
  exact Hpairs.
Qed.

End CornerNormalFacts.

(** On a line with a right-angle turn, with the values [numpy.cos] and
    [numpy.sin] return and the product for the square: the rule gives a
    normal across the first segment, one along the bisector of the turn and
    one across the last segment, and the six points returned are the three
    input points moved by plus and minus these. *)
Lemma corner_normals_offset_each_point_witness :
  2 <= List.length turning_line /\
  map (offset_rule cos_quarter sin_quarter square_product turning_line 0.2)
    [0; 1; 2]
  = [ (1.2246467991473533e-17, 0.2);
      (-0.1414213562373095, 0.1414213562373095);
      (-0.2, 1.2246467991473533e-17) ]%float /\
  List.length (get_corner_normals cos_quarter sin_quarter square_product turning_line 0.2)
    = 2 * List.length turning_line /\
  forall i, i < List.length turning_line ->
    forall x y z, nth i turning_line (0, 0, 0)%float = (x, y, z) ->
    forall nx ny,
      offset_rule cos_quarter sin_quarter square_product turning_line 0.2 i = (nx, ny) ->
      nth_error (get_corner_normals cos_quarter sin_quarter square_product turning_line 0.2) (2 * i)
        = Some (x + nx, y + ny, z)%float /\
      nth_error (get_corner_normals cos_quarter sin_quarter square_product turning_line 0.2) (2 * i + 1)
        = Some (x - nx, y - ny, z)%float.
Proof.
  assert (Hlen : 2 <= List.length turning_line) by (simpl; lia).
  split; [exact Hlen |].
  split; [vm_compute; reflexivity |].
  exact (corner_normals_offset_each_point cos_quarter sin_quarter square_product
           turning_line 0.2 Hlen).
Defined.

(** C4. Two lines on which the interior rule neither takes the equality
    branch without harm nor avoids the division by zero, on the values
    [numpy.cos] and [numpy.sin] return.  (1) A line the parser returns whose
    points 1, 2 and 3 coincide: at index 2 both difference vectors are zero,
    the equality test of line 84 holds, the normal is the zero vector, the
    magnitude of line 90 is 0 and line 91 divides 0 by 0; the two corner
    points have NaN for x and y.  (2) A line that runs out along the x axis
    and straight back: since cos(pi/2) is not 0 in binary64, the two rotated
    vectors are not exact negatives, the equality test fails and the sum is
    used; its direction is along the line, not across it. *)
Theorem coincident_points_divide_by_zero :
  parse_gcode_file stalled_print 0 = Py.Ok ([[stalled_line]], []) /\
  normals_cancel (last_normal_at cos_quarter sin_quarter stalled_line 2)
    (next_normal_at cos_quarter sin_quarter stalled_line 2) = true /\
  magnitude_at cos_quarter sin_quarter square_product stalled_line 2 = 0%float /\
  nth_error (get_corner_normals cos_quarter sin_quarter square_product stalled_line 0.2) 4
    = Some (nan, nan, 0.2%float) /\
  nth_error (get_corner_normals cos_quarter sin_quarter square_product stalled_line 0.2) 5
    = Some (nan, nan, 0.2%float) /\
  normals_cancel (last_normal_at cos_quarter sin_quarter reversal_line 1)
    (next_normal_at cos_quarter sin_quarter reversal_line 1) = false /\
  nth_error (get_corner_normals cos_quarter sin_quarter square_product reversal_line 0.2) 2
    = Some (10.2, 0, 0.2)%float.
Proof.
  repeat split; vm_compute; reflexivity.
Qed.

(** ** The ribbon mesh *)

Local Open Scope Z_scope.

Lemma mesh_loop_step point_count i indices :
  i < point_count - 2 ->
  mesh_loop point_count i indices =
  mesh_loop point_count (i + 2) (indices ++ segment_triangles point_count i)%list.
Proof.
  intros H. rewrite mesh_loop_equation_1.
  destruct (Z_lt_dec i (point_count - 2)); [reflexivity | lia].
Qed.

Lemma mesh_loop_stop point_count i indices :
  ~ i < point_count - 2 ->
  mesh_loop point_count i indices = indices.
Proof.
  intros H. rewrite mesh_loop_equation_1.
  destruct (Z_lt_dec i (point_count - 2)); [lia | reflexivity].
Qed.

(** The loop adds the eight triangles of each index it visits, in order. *)
Lemma mesh_loop_unroll point_count :
  forall count i indices,
    i + 2 * Z.of_nat count = point_count - 2 ->
    mesh_loop point_count i indices =
    (indices ++ flat_map (segment_triangles point_count) (loop_indices i count))%list.
Proof.
  induction count as [| count IH]; intros i indices Hend.
  - rewrite mesh_loop_stop by lia. simpl. rewrite app_nil_r. reflexivity.
  - rewrite mesh_loop_step by lia.
    rewrite IH by lia. cbn [loop_indices flat_map].
    rewrite <- app_assoc. reflexivity.
Qed.

Lemma segments_length point_count :
  forall count i,
    List.length (flat_map (segment_triangles point_count) (loop_indices i count))
    = (8 * count)%nat.
Proof.
  induction count as [| count IH]; intros i; [reflexivity |].
  cbn [loop_indices flat_map]. rewrite length_app, IH. simpl. lia.
Qed.

Lemma loop_indices_in :
  forall count i m,
    (m < count)%nat -> In (i + 2 * Z.of_nat m) (loop_indices i count).
Proof.
  induction count as [| count IH]; intros i m Hm; [lia |].
  destruct m as [| m]; simpl loop_indices.
  - left. lia.
  - right. replace (i + 2 * Z.of_nat (S m)) with (i + 2 + 2 * Z.of_nat m) by lia.
    apply IH. lia.
Qed.

(** What [build_mesh_from_points] returns on an even, non-empty boundary. *)
Lemma build_mesh_unfold points line_height (pairs : nat) :
  List.length points = (2 * pairs)%nat -> (1 <= pairs)%nat ->
  build_mesh_from_points points line_height =
  ((points ++ map (raise_point line_height) points)%list,
   ([ (0, Z.of_nat (List.length points) + 1, 1);
      (0, Z.of_nat (List.length points), Z.of_nat (List.length points) + 1);
      (Z.of_nat (List.length points) - 2, Z.of_nat (List.length points) - 1,
       Z.of_nat (List.length points) * 2 - 1);
      (Z.of_nat (List.length points) - 2, Z.of_nat (List.length points) * 2 - 1,
       Z.of_nat (List.length points) * 2 - 2) ] ++
    flat_map (segment_triangles (Z.of_nat (List.length points)))
      (loop_indices 0 (pairs - 1)))%list).
Proof.
  intros Hlen Hpairs. unfold build_mesh_from_points. cbv zeta.
  rewrite (mesh_loop_unroll _ (pairs - 1)) by lia.
  reflexivity.
Qed.

(** C3, with the count of the loop. For a boundary of N >= 2 left/right pairs
    (M = 2*N points) and any height, [build_mesh_from_points] returns the M
    input points followed by the M raised points, 2*M vertices in all; every
    index from 0 to 2*M-1 occurs in some triangle; and there are exactly
    4 + 8*(N-1) triangles: two caps of two triangles and eight triangles for
    each of the N-1 segments between consecutive pairs. *)
Theorem ribbon_mesh_counts points line_height (pairs : nat) :
  List.length points = (2 * pairs)%nat ->
  (2 <= pairs)%nat ->
  fst (build_mesh_from_points points line_height)
    = (points ++ map (raise_point line_height) points)%list /\
  List.length (fst (build_mesh_from_points points line_height))
    = (2 * (2 * pairs))%nat /\
  (forall v, 0 <= v < 2 * Z.of_nat (2 * pairs) ->
     exists t, In t (snd (build_mesh_from_points points line_height)) /\ uses t v) /\
  List.length (snd (build_mesh_from_points points line_height))
    = (4 + 8 * (pairs - 1))%nat.
Proof.
  intros Hlen Hpairs.
  rewrite (build_mesh_unfold points line_height pairs Hlen) by lia.
  cbn [fst snd].
  split; [reflexivity |].
  split; [rewrite length_app, length_map; lia |].
  split.
  - intros v Hv. rewrite Hlen.
    set (M := Z.of_nat (2 * pairs)) in *.
    assert (HM : M = 2 * Z.of_nat pairs) by (subst M; lia).
    (* the pair the vertex belongs to, and its level *)
    set (low := if v <? M then v else v - M).
    assert (Hlow : 0 <= low < M) by (subst low; destruct (Z.ltb_spec v M); lia).
    set (m := Z.to_nat (low / 2)).
    assert (Hm : low = 2 * Z.of_nat m \/ low = 2 * Z.of_nat m + 1).
    { subst m. rewrite Z2Nat.id by (apply Z.div_pos; lia).
      pose proof (Z.div_mod low 2 ltac:(lia)) as Hdiv.
      pose proof (Z.mod_pos_bound low 2 ltac:(lia)) as Hmod. lia. }
    assert (Hmlt : (m < pairs)%nat) by lia.
    destruct (Nat.eq_dec m (pairs - 1)) as [Hlast | Hinner].
    + (* the last pair: the back cap *)
      destruct (Z.ltb_spec v M) as [Hbottom | Htop]; subst low.
      * exists (M - 2, M - 1, M * 2 - 1). split; [simpl; auto |].
        unfold uses. lia.
      * exists (M - 2, M * 2 - 1, M * 2 - 2). split; [simpl; auto 6 |].
        unfold uses. lia.
    + (* any other pair: the segment that starts at it *)
      assert (Hin : In (2 * Z.of_nat m) (loop_indices 0 (pairs - 1)))
        by (apply (loop_indices_in (pairs - 1) 0 m); lia).
      destruct (Z.ltb_spec v M) as [Hbottom | Htop]; subst low.
      * exists (2 * Z.of_nat m, 2 * Z.of_nat m + 1, 2 * Z.of_nat m + 3).
        split; [| unfold uses; lia].
        apply in_or_app. right. apply in_flat_map.
        exists (2 * Z.of_nat m). split; [exact Hin |].
        unfold segment_triangles. left. reflexivity.
      * exists (M + 2 * Z.of_nat m, M + 2 * Z.of_nat m + 3, M + 2 * Z.of_nat m + 1).
        split; [| unfold uses; lia].
        apply in_or_app. right. apply in_flat_map.
        exists (2 * Z.of_nat m). split; [exact Hin |].
        unfold segment_triangles. right. right. left. reflexivity.
  - rewrite length_app, segments_length. simpl. lia.
Qed.

Lemma ribbon_mesh_counts_witness :
  fst (build_mesh_from_points two_pairs 0.2)
    = (two_pairs ++ map (raise_point 0.2) two_pairs)%list /\
  List.length (fst (build_mesh_from_points two_pairs 0.2)) = (2 * (2 * 2))%nat /\
  (forall v, 0 <= v < 2 * Z.of_nat (2 * 2) ->
     exists t, In t (snd (build_mesh_from_points two_pairs 0.2)) /\ uses t v) /\
  List.length (snd (build_mesh_from_points two_pairs 0.2)) = (4 + 8 * (2 - 1))%nat.
Proof.
  apply (ribbon_mesh_counts two_pairs 0.2 2).
  - reflexivity.
  - lia.
Defined.

(** C3 with the count 4 + 8*(N-2) fails for N = 2: the mesh of two pairs
    is a closed box of 12 triangles, not 4 + 8*(2-2) = 4. *)
Lemma two_pairs_make_twelve_triangles :
  List.length two_pairs = (2 * 2)%nat /\
  List.length (snd (build_mesh_from_points two_pairs 0.2)) = 12%nat /\
  List.length (snd (build_mesh_from_points two_pairs 0.2)) <> (4 + 8 * (2 - 2))%nat.
Proof.
  split; [reflexivity |].
  split; [reflexivity |].
  vm_compute. discriminate.
Qed.

Local Close Scope Z_scope.

(** ** The object mesh *)

(** C8. [build_object_mesh] never reads [nozzle_width]: it offsets every
    polyline by the constant 0.2 of lines 66 and 79, so two instances that
    differ in nozzle width alone give the same mesh, whatever [numpy] and
    [trimesh] compute.  With a nozzle width of 0.8 the vertices of a straight
    line along the x axis, as line 89 hands them to [trimesh.Trimesh], still
    lie 0.2, not 0.4, to either side of it. *)
Theorem nozzle_width_is_ignored :
  (forall np_cos np_sin np_square (Mesh : Type)
          (Trimesh : TrimeshArguments -> Mesh)
          self w main_layers secondary_layers height,
      build_object_mesh np_cos np_sin np_square Mesh Trimesh
        (with_nozzle_width w self) main_layers secondary_layers height
      = build_object_mesh np_cos np_sin np_square Mesh Trimesh
          self main_layers secondary_layers height) /\
  nozzle_width (with_nozzle_width 0.8 test_watchdog) = 0.8%float /\
  vertices (mesh_arguments cos_quarter sin_quarter square_product
              (with_nozzle_width 0.8 test_watchdog) straight_track [] 36)
  = [ (1.2246467991473533e-17, 0.2, 0); (-1.2246467991473533e-17, -0.2, 0);
      (10, 0.2, 0); (10, -0.2, 0);
      (1.2246467991473533e-17, 0.2, 0.2); (-1.2246467991473533e-17, -0.2, 0.2);
      (10, 0.2, 0.2); (10, -0.2, 0.2) ]%float.
Proof.
  split; [intros; reflexivity |].
  split; [reflexivity |].
  vm_compute. reflexivity.
Qed.

(** * Further properties of the parser *)

Lemma tool_change_keeps line st :
  printing (tool_change line st) = printing st /\
  tracks_of (tool_change line st) = tracks_of st.
Proof.
  unfold tool_change.
  destruct (_ || _); [| split; reflexivity].
  destruct (Py.slice_from 1 line); [split; reflexivity |].
  destruct (negb _); split; reflexivity.
Qed.

Lemma start_marker_sets line st :
  printing (start_marker line st)
    = printing st || String.eqb (Py.slice_to 4 line) "M205" /\
  tracks_of (start_marker line st) = tracks_of st /\
  printcore (start_marker line st) = printcore st.
Proof.
  unfold start_marker.
  destruct (String.eqb (Py.slice_to 4 line) "M205"); simpl.
  - rewrite Bool.orb_true_r. repeat split.
  - rewrite Bool.orb_false_r. repeat split.
Qed.

Lemma start_marker_absent line st :
  String.eqb (Py.slice_to 4 line) "M205" = false -> start_marker line st = st.
Proof. unfold start_marker. intros ->. reflexivity. Qed.

Lemma motion_keeps_printing hd line st st' flag :
  motion hd line st = Py.Ok (st', flag) ->
  printing st' = printing st /\ printcore st' = printcore st.
Proof.
  intros Hm. open_motion Hm. split_ifs; split; reflexivity.
Qed.

(** What one line does to the [printing] flag. *)
Lemma process_line_printing hd st raw st' :
  process_line hd st raw = Py.Ok st' ->
  printing st' = printing st || has_marker raw.
Proof.
  rewrite process_line_unfold. cbv zeta. unfold has_marker.
  destruct (String.eqb (strip_comment raw) "") eqn:Hempty.
  - apply String.eqb_eq in Hempty. rewrite Hempty. simpl.
    intros H. injection H as <-. rewrite Bool.orb_false_r. reflexivity.
  - destruct (start_marker_sets (strip_comment raw)
                (tool_change (strip_comment raw) st)) as [Hp _].
    destruct (tool_change_keeps (strip_comment raw) st) as [Ht _].
    rewrite Ht in Hp.
    destruct (printing _ && is_motion _).
    + intros H. apply bind_ok in H. destruct H as [[st3 flag] [Hm Heq]].
      simpl in Heq. injection Heq as <-.
      destruct (motion_keeps_printing _ _ _ _ _ Hm) as [-> _]. exact Hp.
    + intros H. injection H as <-. exact Hp.
Qed.

Lemma run_printing hd file :
  forall st st',
    run hd st file = Py.Ok st' ->
    printing st' = printing st || existsb has_marker file.
Proof.
  induction file as [| raw rest IH]; intros st st' Hrun; simpl in Hrun.
  - injection Hrun as <-. simpl. rewrite Bool.orb_false_r. reflexivity.
  - apply bind_ok in Hrun. destruct Hrun as [st1 [Hstep Hrest]].
    rewrite (IH _ _ Hrest), (process_line_printing _ _ _ _ Hstep).
    simpl. rewrite Bool.orb_assoc. reflexivity.
Qed.

(** X2. When a file is read to its end, the parser is recording exactly when
    some line of the file started with the marker [M205]: the flag is set by
    the first such line and nothing ever clears it. *)
Theorem printing_iff_marker_seen hd file st :
  run hd initial_state file = Py.Ok st ->
  printing st = existsb has_marker file.
Proof.
  intros Hrun. rewrite (run_printing _ _ _ _ Hrun). reflexivity.
Qed.

Lemma printing_iff_marker_seen_witness :
  printing mid_layer_state = existsb has_marker open_segment.
Proof.
  apply (printing_iff_marker_seen 0 open_segment mid_layer_state).
  vm_compute. reflexivity.
Defined.

(** A line without the marker, read while the parser is not recording, is at
    most a tool change: it cannot fail and leaves the accumulators alone. *)
Lemma unmarked_line_records_nothing hd st raw :
  printing st = false -> has_marker raw = false ->
  exists st',
    process_line hd st raw = Py.Ok st' /\
    printing st' = false /\ tracks_of st' = tracks_of st.
Proof.
  intros Hidle Hmarker. rewrite process_line_unfold. cbv zeta.
  destruct (String.eqb (strip_comment raw) "").
  - exists st. repeat split. exact Hidle.
  - unfold has_marker in Hmarker.
    rewrite (start_marker_absent _ _ Hmarker).
    destruct (tool_change_keeps (strip_comment raw) st) as [Hp Ht].
    rewrite Hp, Hidle. simpl.
    eexists. split; [reflexivity |]. split; [rewrite Hp; exact Hidle | exact Ht].
Qed.

Lemma unmarked_file_records_nothing hd file :
  Forall (fun raw => has_marker raw = false) file ->
  forall st,
    printing st = false ->
    exists st',
      run hd st file = Py.Ok st' /\
      printing st' = false /\ tracks_of st' = tracks_of st.
Proof.
  induction 1 as [| raw rest Hraw Hrest IH]; intros st Hidle; simpl.
  - exists st. repeat split. exact Hidle.
  - destruct (unmarked_line_records_nothing hd st raw Hidle Hraw)
      as [st1 [Hstep [Hidle1 Htracks1]]].
    rewrite Hstep. simpl.
    destruct (IH st1 Hidle1) as [st' [Hrun [Hidle' Htracks']]].
    exists st'. split; [exact Hrun |]. split; [exact Hidle' |].
    rewrite Htracks'. exact Htracks1.
Qed.

(** X1. A file in which no line starts with the marker [M205] is parsed
    without error, whatever its motion lines hold, and gives two empty
    tracks: nothing is recorded before the marker. *)
Theorem no_marker_no_layers file hd :
  Forall (fun raw => has_marker raw = false) file ->
  parse_gcode_file file hd = Py.Ok ([], []).
Proof.
  intros Hfile. unfold parse_gcode_file.
  destruct (unmarked_file_records_nothing hd file Hfile initial_state eq_refl)
    as [st [Hrun [_ Htracks]]].
  rewrite Hrun. simpl.
  unfold tracks_of in Htracks. simpl in Htracks.
  injection Htracks as -> -> _ _ _ _. reflexivity.
Qed.

Lemma no_marker_no_layers_witness :
  parse_gcode_file unmarked_file 18 = Py.Ok ([], []).
Proof.
  apply (no_marker_no_layers unmarked_file 18).
  repeat constructor.
Defined.

(** Parameters none of which is a malformed operand are read to the end. *)
Lemma read_parameters_returns hd core parameters :
  Forall (fun p => malformed_operand p = false) parameters ->
  forall new, exists new', read_parameters hd core parameters new = Py.Ok new'.
Proof.
  induction 1 as [| p rest Hp Hrest IH]; intros new; simpl.
  - exists new. reflexivity.
  - destruct p as [| letter number]; [apply IH |].
    destruct new as [[[new_x new_y] new_z] new_e].
    simpl in Hp.
    destruct (Py.float number) as [v | e]; simpl.
    + destruct (Ascii.eqb letter "X"); [apply IH |].
      destruct (Ascii.eqb letter "Y"); [apply IH |].
      destruct (Ascii.eqb letter "Z"); [apply IH |].
      destruct (Ascii.eqb letter "E"); apply IH.
    + rewrite Bool.andb_true_r in Hp.
      destruct (Ascii.eqb letter "X"); [discriminate Hp |].
      destruct (Ascii.eqb letter "Y"); [discriminate Hp |].
      destruct (Ascii.eqb letter "Z"); [discriminate Hp |].
      destruct (Ascii.eqb letter "E"); [discriminate Hp |].
      apply IH.
Qed.

Lemma well_formed_line_returns hd st raw :
  well_formed_line raw -> exists st', process_line hd st raw = Py.Ok st'.
Proof.
  intros Hraw. rewrite process_line_unfold. cbv zeta.
  destruct (String.eqb (strip_comment raw) ""); [eexists; reflexivity |].
  destruct (printing _ && is_motion _); [| eexists; reflexivity].
  unfold motion.
  set (st2 := start_marker _ _).
  destruct (read_parameters_returns hd (printcore st2) _ Hraw
              (current_x st2, current_y st2, current_z st2, last_e st2))
    as [[[[x y] z] e] Hread].
  unfold parameters_of in Hread. rewrite Hread. simpl.
  eexists. reflexivity.
Qed.

(** X3. No conversion fails where no operand is malformed: on a file, given
    as its lines of text, none of whose parameters starts with X, Y, Z or E
    and goes on with text [float] rejects, no call of [float] in lines
    199-214 raises [ValueError], the loop runs to the end of the file and two
    tracks are returned.  (Those calls are the only operations of the loop
    that can raise on a line of text: [int(line[1])] is applied to 0 or 1
    and [p[0]] to a parameter that is not empty.  Opening and decoding the
    file come before the lines and are not part of the statement.) *)
Theorem well_formed_file_is_parsed file hd :
  Forall well_formed_line file ->
  exists tracks, parse_gcode_file file hd = Py.Ok tracks.
Proof.
  intros Hfile. unfold parse_gcode_file.
  assert (Hrun : forall st, exists st', run hd st file = Py.Ok st').
  { induction Hfile as [| raw rest Hraw Hrest IH]; intros st; simpl.
    - exists st. reflexivity.
    - destruct (well_formed_line_returns hd st raw Hraw) as [st1 Hstep].
      rewrite Hstep. simpl. apply IH. }
  destruct (Hrun initial_state) as [st Hst].
  rewrite Hst. simpl. eexists. reflexivity.
Qed.

Lemma well_formed_file_is_parsed_witness :
  exists tracks, parse_gcode_file two_layer_print 18 = Py.Ok tracks.
Proof.
  apply (well_formed_file_is_parsed two_layer_print 18).
  repeat constructor.
Defined.

(** *** One extruder *)

Lemma read_parameters_first_core hd hd' parameters :
  forall new,
    read_parameters hd 0 parameters new = read_parameters hd' 0 parameters new.
Proof.
  induction parameters as [| p rest IH]; intros new; simpl; [reflexivity |].
  destruct p as [| letter number]; [apply IH |].
  destruct new as [[[new_x new_y] new_z] new_e].
  destruct (Ascii.eqb letter "X");
    [destruct (Py.float number); simpl; [apply IH | reflexivity] |].
  destruct (Ascii.eqb letter "Y");
    [destruct (Py.float number); simpl; [apply IH | reflexivity] |].
  destruct (Ascii.eqb letter "Z");
    [destruct (Py.float number); simpl; [apply IH | reflexivity] |].
  destruct (Ascii.eqb letter "E");
    [destruct (Py.float number); simpl; [apply IH | reflexivity] |].
  apply IH.
Qed.

Lemma motion_first_core hd hd' line st :
  printcore st = 0%Z -> motion hd line st = motion hd' line st.
Proof.
  intros Hcore. unfold motion. rewrite Hcore.
  rewrite (read_parameters_first_core hd hd'). reflexivity.
Qed.

Lemma motion_first_core_keeps hd line st st' flag :
  printcore st = 0%Z ->
  motion hd line st = Py.Ok (st', flag) ->
  printcore st' = 0%Z /\
  (two_layers st', two_lines st', two_new_line st')
    = (two_layers st, two_lines st, two_new_line st).
Proof.
  intros Hcore Hm. open_motion Hm. rewrite Hcore. simpl.
  split_ifs; simpl; split; solve [reflexivity | exact Hcore].
Qed.

(** On the first core a tool line other than [T1] changes nothing. *)
Lemma tool_change_first_core line st :
  printcore st = 0%Z ->
  String.eqb (Py.slice_to 2 line) "T1" = false ->
  tool_change line st = st.
Proof.
  intros Hcore Hnot. unfold tool_change. rewrite Hnot, Bool.orb_false_r.
  destruct (String.eqb (Py.slice_to 2 line) "T0") eqn:H0; [| reflexivity].
  apply String.eqb_eq in H0.
  destruct line as [| a [| b rest]]; try discriminate H0.
  injection H0 as -> ->. simpl. rewrite Hcore. reflexivity.
Qed.

Lemma process_line_first_core hd hd' st raw :
  printcore st = 0%Z ->
  selects_second_core raw = false ->
  process_line hd st raw = process_line hd' st raw /\
  forall st',
    process_line hd st raw = Py.Ok st' ->
    printcore st' = 0%Z /\
    (two_layers st', two_lines st', two_new_line st')
      = (two_layers st, two_lines st, two_new_line st).
Proof.
  intros Hcore Hnot. unfold selects_second_core in Hnot.
  rewrite !process_line_unfold. cbv zeta.
  destruct (String.eqb (strip_comment raw) "").
  - split; [reflexivity |]. intros st' H. injection H as <-.
    split; [exact Hcore | reflexivity].
  - rewrite (tool_change_first_core _ _ Hcore Hnot).
    destruct (start_marker_sets (strip_comment raw) st) as [_ [Htracks Hsame]].
    assert (Hcore2 : printcore (start_marker (strip_comment raw) st) = 0%Z)
      by (rewrite Hsame; exact Hcore).
    assert (Htwo : (two_layers (start_marker (strip_comment raw) st),
                    two_lines (start_marker (strip_comment raw) st),
                    two_new_line (start_marker (strip_comment raw) st))
                   = (two_layers st, two_lines st, two_new_line st))
      by (unfold tracks_of in Htracks; injection Htracks as _ -> _ -> _ ->; reflexivity).
    destruct (printing _ && is_motion _).
    + rewrite (motion_first_core hd hd' _ _ Hcore2).
      split; [reflexivity |]. intros st' H.
      apply bind_ok in H. destruct H as [[st3 flag] [Hm Heq]].
      simpl in Heq. injection Heq as <-.
      destruct (motion_first_core_keeps _ _ _ _ _ Hcore2 Hm) as [Hc Ht].
      split; [exact Hc |]. rewrite Ht. exact Htwo.
    + split; [reflexivity |]. intros st' H. injection H as <-.
      split; [exact Hcore2 | exact Htwo].
Qed.

Lemma run_first_core hd hd' file :
  Forall (fun raw => selects_second_core raw = false) file ->
  forall st,
    printcore st = 0%Z ->
    run hd st file = run hd' st file /\
    forall st',
      run hd st file = Py.Ok st' ->
      (two_layers st', two_lines st', two_new_line st')
        = (two_layers st, two_lines st, two_new_line st).
Proof.
  induction 1 as [| raw rest Hraw Hrest IH]; intros st Hcore; simpl.
  - split; [reflexivity |]. intros st' H. injection H as <-. reflexivity.
  - destruct (process_line_first_core hd hd' st raw Hcore Hraw) as [Hsame Hkeeps].
    rewrite <- Hsame.
    destruct (process_line hd st raw) as [st1 | e]; simpl.
    + destruct (Hkeeps st1 eq_refl) as [Hcore1 Htwo1].
      destruct (IH st1 Hcore1) as [Hrun Htwo].
      split; [exact Hrun |]. intros st' H.
      rewrite (Htwo st' H). exact Htwo1.
    + split; [reflexivity |]. intros st' H. discriminate H.
Qed.

(** X4. For a file in which no line starts with [T1], the hotend distance
    plays no part: the parser gives the same outcome for any two distances,
    and whenever it returns, the second track is empty. *)
Theorem single_extruder_ignores_hotend_distance file hd hd' :
  Forall (fun raw => selects_second_core raw = false) file ->
  parse_gcode_file file hd = parse_gcode_file file hd' /\
  forall one two, parse_gcode_file file hd = Py.Ok (one, two) -> two = [].
Proof.
  intros Hfile. unfold parse_gcode_file.
  destruct (run_first_core hd hd' file Hfile initial_state eq_refl) as [Hrun Htwo].
  rewrite <- Hrun. split; [reflexivity |].
  intros one two H. apply bind_ok in H. destruct H as [st [Hst Hret]].
  injection Hret as <- <-.
  specialize (Htwo st Hst). injection Htwo as -> _ _. reflexivity.
Qed.

Lemma single_extruder_ignores_hotend_distance_witness :
  parse_gcode_file two_layer_print 18 = parse_gcode_file two_layer_print 0 /\
  forall one two, parse_gcode_file two_layer_print 18 = Py.Ok (one, two) -> two = [].
Proof.
  apply (single_extruder_ignores_hotend_distance two_layer_print 18 0).
  repeat constructor.
Defined.

(** *** Comments *)

Lemma split_without_separator sep text :
  Py.contains sep text = false -> Py.split sep text = [text].
Proof.
  induction text as [| c rest IH]; simpl; intros H; [reflexivity |].
  apply Bool.orb_false_iff in H. destruct H as [Hc Hrest].
  rewrite Ascii.eqb_sym, Hc, (IH Hrest). reflexivity.
Qed.

Lemma split_at_first_separator sep text rest :
  Py.contains sep text = false ->
  Py.split sep (text ++ String sep rest) = text :: Py.split sep rest.
Proof.
  induction text as [| c text' IH]; simpl; intros H.
  - rewrite Ascii.eqb_refl. reflexivity.
  - apply Bool.orb_false_iff in H. destruct H as [Hc Hrest].
    rewrite Ascii.eqb_sym, Hc, (IH Hrest). reflexivity.
Qed.

(** X5. Everything from the first semicolon of a line on is a comment: a
    line gives the same outcome with and without it, and a line that starts
    with a semicolon changes nothing. *)
Theorem comment_is_ignored hd st text comment :
  Py.contains ";" text = false ->
  process_line hd st (text ++ String ";" comment) = process_line hd st text /\
  process_line hd st (String ";" comment) = Py.Ok st.
Proof.
  intros Hclean. split.
  - unfold process_line, process_line_flag, strip_comment.
    rewrite (split_at_first_separator _ _ _ Hclean),
            (split_without_separator _ _ Hclean).
    reflexivity.
  - reflexivity.
Qed.

Lemma comment_is_ignored_witness :
  process_line 0 mid_layer_state
    ("G1 X3 Y0 Z0.4 E3 " ++ String ";" " outer wall; second pass")
  = process_line 0 mid_layer_state "G1 X3 Y0 Z0.4 E3 " /\
  process_line 0 mid_layer_state (String ";" " outer wall; second pass")
  = Py.Ok mid_layer_state.
Proof.
  apply (comment_is_ignored 0 mid_layer_state "G1 X3 Y0 Z0.4 E3 "
           " outer wall; second pass").
  reflexivity.
Defined.

(** *** Tool lines and moves *)

(** X6. A tool line that selects the core that is already active changes
    nothing: the saved values are not exchanged. *)
Theorem same_core_tool_line_changes_nothing hd st raw :
  printcore st = 0%Z \/ printcore st = 1%Z ->
  tool_line (printcore st) raw = true ->
  process_line hd st raw = Py.Ok st.
Proof.
  intros Hcore Hline.
  destruct (tool_line_text _ _ Hline) as [rest Htext].
  rewrite process_line_unfold, Htext. cbv zeta.
  destruct Hcore as [Hc | Hc]; rewrite Hc; cbn;
    unfold tool_change; cbn; unfold Py.int_of_digit, Py.digit_value; cbn.
  - change (Z.of_nat (Pos.to_nat 48) - 48)%Z with 0%Z.
    rewrite Hc. cbn. rewrite Bool.andb_false_r. reflexivity.
  - change (Z.of_nat (Pos.to_nat 49) - 48)%Z with 1%Z.
    rewrite Hc. cbn. rewrite Bool.andb_false_r. reflexivity.
Qed.

Lemma same_core_tool_line_changes_nothing_witness :
  process_line 18 mid_layer_state ("T0" ++ LF) = Py.Ok mid_layer_state.
Proof.
  apply (same_core_tool_line_changes_nothing 18 mid_layer_state ("T0" ++ LF)).
  - left. reflexivity.
  - reflexivity.
Defined.

(** X7. A motion line that does not extrude (no E operand, no axis operand,
    or a balance that stays at or below zero) closes the open polyline of
    the active core: the polyline joins the layer under construction when it
    has two points or more and is dropped otherwise; the new open polyline
    is the target point alone.  The closed layers, the last extruded z and
    the other core's accumulators stay as they are, and the position becomes
    the target. *)
Theorem travel_move_closes_open_polyline hd st raw x y z e :
  printing st = true ->
  is_motion (strip_comment raw) = true ->
  move_target hd st raw = Py.Ok (x, y, z, e) ->
  move_extrudes st raw e = false ->
  exists st',
    process_line hd st raw = Py.Ok st' /\
    active_layers st' = active_layers st /\
    active_lines st' =
      (if (1 <? List.length (active_new_line st))%nat
       then (active_lines st ++ [active_new_line st])%list
       else active_lines st) /\
    active_new_line st' = [(x, y, z)] /\
    idle_tracks st' = idle_tracks st /\
    last_extruded_z st' = last_extruded_z st /\
    (current_x st', current_y st', current_z st') = (x, y, z).
Proof.
  intros Hprinting Hmotion Htarget Hextrudes.
  rewrite (motion_line_only_moves _ _ _ Hmotion Hprinting).
  unfold move_target in Htarget. unfold move_extrudes in Hextrudes.
  unfold motion. rewrite Htarget. simpl.
  unfold active_layers, active_lines, active_new_line, idle_tracks.
  destruct (mentions_extrusion (strip_comment raw)); simpl in Hextrudes |- *;
    rewrite ?Hextrudes; simpl;
    (eexists; split; [reflexivity |]);
    destruct (printcore st =? 0)%Z eqn:Hcore; simpl; rewrite Hcore;
    repeat split; reflexivity.
Qed.

Lemma travel_move_closes_open_polyline_witness :
  exists st',
    process_line 0 mid_layer_state ("G0 X0 Y5" ++ LF) = Py.Ok st' /\
    active_layers st' = active_layers mid_layer_state /\
    active_lines st' =
      (if (1 <? List.length (active_new_line mid_layer_state))%nat
       then (active_lines mid_layer_state ++ [active_new_line mid_layer_state])%list
       else active_lines mid_layer_state) /\
    active_new_line st' = [(0, 5, 0.2)]%float /\
    idle_tracks st' = idle_tracks mid_layer_state /\
    last_extruded_z st' = last_extruded_z mid_layer_state /\
    (current_x st', current_y st', current_z st') = (0, 5, 0.2)%float.
Proof.
  apply (travel_move_closes_open_polyline 0 mid_layer_state
           ("G0 X0 Y5" ++ LF) 0 5 0.2 0);
    vm_compute; reflexivity.
Defined.

(** X8. A motion line that extrudes at the last extruded z adds its target
    point to the end of the open polyline of the active core and moves the
    position there; layers, the layer under construction and the other
    core's accumulators stay as they are. *)
Theorem extruding_move_extends_open_polyline hd st raw x y z e :
  printing st = true ->
  is_motion (strip_comment raw) = true ->
  move_target hd st raw = Py.Ok (x, y, z, e) ->
  move_extrudes st raw e = true ->
  (z =? last_extruded_z st)%float = true ->
  exists st',
    process_line hd st raw = Py.Ok st' /\
    active_layers st' = active_layers st /\
    active_lines st' = active_lines st /\
    active_new_line st' = (active_new_line st ++ [(x, y, z)])%list /\
    idle_tracks st' = idle_tracks st /\
    last_extruded_z st' = z /\
    (current_x st', current_y st', current_z st') = (x, y, z).
Proof.
  intros Hprinting Hmotion Htarget Hextrudes Hz.
  rewrite (motion_line_only_moves _ _ _ Hmotion Hprinting).
  unfold move_target in Htarget. unfold move_extrudes in Hextrudes.
  unfold motion. rewrite Htarget. simpl.
  unfold active_layers, active_lines, active_new_line, idle_tracks.
  destruct (mentions_extrusion (strip_comment raw)); simpl in Hextrudes |- *;
    [| discriminate Hextrudes].
  rewrite Hextrudes, Hz. simpl.
  eexists. split; [reflexivity |].
  destruct (printcore st =? 0)%Z eqn:Hcore; simpl; rewrite Hcore;
    repeat split; reflexivity.
Qed.

Lemma extruding_move_extends_open_polyline_witness :
  exists st',
    process_line 0 mid_layer_state ("G1 X3 Y1 E3" ++ LF) = Py.Ok st' /\
    active_layers st' = active_layers mid_layer_state /\
    active_lines st' = active_lines mid_layer_state /\
    active_new_line st' = (active_new_line mid_layer_state ++ [(3, 1, 0.2)%float])%list /\
    idle_tracks st' = idle_tracks mid_layer_state /\
    last_extruded_z st' = 0.2%float /\
    (current_x st', current_y st', current_z st') = (3, 1, 0.2)%float.
Proof.
  apply (extruding_move_extends_open_polyline 0 mid_layer_state
           ("G1 X3 Y1 E3" ++ LF) 3 1 0.2 3);
    vm_compute; reflexivity.
Defined.

(** * Further properties of the ribbon mesh *)

Local Open Scope Z_scope.

Lemma loop_indices_values :
  forall count i j,
    In j (loop_indices i count) ->
    exists m, (m < count)%nat /\ j = i + 2 * Z.of_nat m.
Proof.
  induction count as [| count IH]; intros i j Hin; [destruct Hin |].
  destruct Hin as [<- | Hin].
  - exists 0%nat. split; lia.
  - destruct (IH _ _ Hin) as [m [Hm ->]]. exists (S m). split; lia.
Qed.

(** The loop of lines 298-307 also stops when it steps over the bound. *)
Lemma mesh_loop_unroll_to_bound point_count :
  forall count i indices,
    point_count - 2 <= i + 2 * Z.of_nat count < point_count ->
    mesh_loop point_count i indices =
    (indices ++ flat_map (segment_triangles point_count) (loop_indices i count))%list.
Proof.
  induction count as [| count IH]; intros i indices Hend.
  - rewrite mesh_loop_stop by lia. simpl. rewrite app_nil_r. reflexivity.
  - rewrite mesh_loop_step by lia.
    rewrite IH by lia. cbn [loop_indices flat_map].
    rewrite <- app_assoc. reflexivity.
Qed.

Lemma segment_triangles_within point_count i :
  0 <= i -> i + 4 <= point_count ->
  Forall (within (2 * point_count)) (segment_triangles point_count i) /\
  Forall distinct_corners (segment_triangles point_count i).
Proof.
  intros Hlow Hhigh. unfold segment_triangles.
  split; repeat constructor; lia.
Qed.

(** The triangles of an even boundary: indices in range, corners distinct. *)
Lemma mesh_triangles_sound points line_height (pairs : nat) :
  List.length points = (2 * pairs)%nat -> (1 <= pairs)%nat ->
  Forall (within (2 * Z.of_nat (List.length points)))
    (snd (build_mesh_from_points points line_height)) /\
  Forall distinct_corners (snd (build_mesh_from_points points line_height)).
Proof.
  intros Hlen Hpairs.
  rewrite (build_mesh_unfold points line_height pairs Hlen Hpairs). cbn [snd].
  set (M := Z.of_nat (List.length points)).
  assert (HM : M = 2 * Z.of_nat pairs) by (subst M; lia).
  assert (Hsegments :
            forall j, In j (loop_indices 0 (pairs - 1)) ->
                      Forall (within (2 * M)) (segment_triangles M j) /\
                      Forall distinct_corners (segment_triangles M j)).
  { intros j Hj. destruct (loop_indices_values _ _ _ Hj) as [m [Hm ->]].
    apply segment_triangles_within; lia. }
  split; apply Forall_app; split.
  - repeat constructor; lia.
  - apply Forall_flat_map, Forall_forall. intros j Hj. apply (Hsegments j Hj).
  - repeat constructor; lia.
  - apply Forall_flat_map, Forall_forall. intros j Hj. apply (Hsegments j Hj).
Qed.

Lemma mesh_vertices_length points line_height :
  List.length (fst (build_mesh_from_points points line_height))
  = (2 * List.length points)%nat.
Proof.
  unfold build_mesh_from_points. cbn [fst].
  rewrite length_app, length_map. lia.
Qed.

(** X9. For a boundary with an even number of points, two or more, every
    index of every triangle [build_mesh_from_points] returns refers to one of
    the vertices it returns, and no triangle names the same vertex twice. *)
Theorem ribbon_triangles_are_sound points line_height (pairs : nat) :
  List.length points = (2 * pairs)%nat ->
  (1 <= pairs)%nat ->
  Forall (within (Z.of_nat
                    (List.length (fst (build_mesh_from_points points line_height)))))
    (snd (build_mesh_from_points points line_height)) /\
  Forall distinct_corners (snd (build_mesh_from_points points line_height)).
Proof.
  intros Hlen Hpairs. rewrite mesh_vertices_length.
  replace (Z.of_nat (2 * List.length points))
    with (2 * Z.of_nat (List.length points)) by lia.
  exact (mesh_triangles_sound points line_height pairs Hlen Hpairs).
Qed.

Lemma ribbon_triangles_are_sound_witness :
  Forall (within (Z.of_nat
                    (List.length (fst (build_mesh_from_points two_pairs 0.2)))))
    (snd (build_mesh_from_points two_pairs 0.2)) /\
  Forall distinct_corners (snd (build_mesh_from_points two_pairs 0.2)).
Proof.
  apply (ribbon_triangles_are_sound two_pairs 0.2 2).
  - reflexivity.
  - lia.
Defined.

(** X10. For a boundary with an odd number of points, three or more, the
    last round of the loop reaches past the end: some triangle names the
    index 2*M, one more than the last of the 2*M vertices returned. *)
Theorem odd_boundary_names_missing_vertex points line_height (k : nat) :
  List.length points = (2 * k + 3)%nat ->
  exists t,
    In t (snd (build_mesh_from_points points line_height)) /\
    uses t (Z.of_nat
              (List.length (fst (build_mesh_from_points points line_height)))).
Proof.
  intros Hlen. rewrite mesh_vertices_length.
  unfold build_mesh_from_points. cbv zeta. cbn [snd].
  rewrite (mesh_loop_unroll_to_bound _ (S k)) by lia.
  set (M := Z.of_nat (List.length points)).
  exists (M + 2 * Z.of_nat k, M + 2 * Z.of_nat k + 3, M + 2 * Z.of_nat k + 1).
  split.
  - apply in_or_app. right. apply in_flat_map.
    exists (2 * Z.of_nat k). split.
    + apply (loop_indices_in (S k) 0 k). lia.
    + unfold segment_triangles. right. right. left. reflexivity.
  - unfold uses. right. left. subst M. lia.
Qed.

Lemma odd_boundary_names_missing_vertex_witness :
  exists t,
    In t (snd (build_mesh_from_points three_points 0.2)) /\
    uses t (Z.of_nat
              (List.length (fst (build_mesh_from_points three_points 0.2)))).
Proof.
  apply (odd_boundary_names_missing_vertex three_points 0.2 0).
  reflexivity.
Defined.

Local Close Scope Z_scope.

(** * Further properties of the object mesh *)

Lemma fold_left_concat {A B : Type} (f : A -> B -> A) (ls : list (list B)) :
  forall a,
    fold_left (fun a l => fold_left f l a) ls a = fold_left f (List.concat ls) a.
Proof.
  induction ls as [| l rest IH]; intros a; simpl; [reflexivity |].
  rewrite fold_left_app. apply IH.
Qed.

Lemma filter_concat {A : Type} (p : A -> bool) (ls : list (list A)) :
  filter p (List.concat ls) = List.concat (map (filter p) ls).
Proof.
  induction ls as [| l rest IH]; simpl; [reflexivity |].
  rewrite filter_app, IH. reflexivity.
Qed.

Lemma list_slice_to_map {A B : Type} (f : A -> B) (k : Z) (l : list A) :
  Py.list_slice_to k (map f l) = map f (Py.list_slice_to k l).
Proof.
  unfold Py.list_slice_to. rewrite length_map.
  destruct (0 <=? k)%Z; apply firstn_map.
Qed.

Lemma within_wider (bound bound' : Z) (t : triangle) :
  (bound <= bound')%Z -> within bound t -> within bound' t.
Proof.
  destruct t as [[a b] c]. unfold within. lia.
Qed.

Lemma rebase_within (offset bound : Z) (t : triangle) :
  (0 <= offset)%Z -> within bound t -> within (offset + bound) (rebase offset t).
Proof.
  destruct t as [[a b] c]. unfold within, rebase. lia.
Qed.

Section ObjectMeshFacts.

Variables np_cos np_sin np_square : PrimFloat.float -> PrimFloat.float.
Variable Mesh : Type.
Variable Trimesh : TrimeshArguments -> Mesh.

(** Lines of fewer than two points give no corner points, longer ones two
    per point. *)
Lemma corner_normals_length line width :
  List.length (get_corner_normals np_cos np_sin np_square line width)
  = if long_line line then 2 * List.length line else 0.
Proof.
  unfold get_corner_normals, long_line. cbv zeta.
  destruct (1 <? List.length line)%nat eqn:Hlong; [| reflexivity].
  apply Nat.ltb_lt in Hlong.
  rewrite interior_loop, !length_app, pairs_length, length_seq. simpl. lia.
Qed.

Lemma mesh_faces_length points line_height (pairs : nat) :
  List.length points = (2 * pairs)%nat -> (1 <= pairs)%nat ->
  List.length (snd (build_mesh_from_points points line_height))
  = 4 + 8 * (pairs - 1).
Proof.
  intros Hlen Hpairs.
  rewrite (build_mesh_unfold points line_height pairs Hlen Hpairs). cbn [snd].
  rewrite length_app, segments_length. reflexivity.
Qed.

Lemma add_line_short buffers line :
  long_line line = false -> add_line np_cos np_sin np_square buffers line = buffers.
Proof.
  unfold add_line, long_line. destruct buffers as [vs fs]. intros ->. reflexivity.
Qed.

Lemma add_line_long buffers line :
  long_line line = true ->
  add_line np_cos np_sin np_square buffers line =
  ((fst buffers ++
    fst (build_mesh_from_points
           (get_corner_normals np_cos np_sin np_square line 0.2) 0.2))%list,
   (snd buffers ++
    map (rebase (Z.of_nat (List.length (fst buffers))))
      (snd (build_mesh_from_points
              (get_corner_normals np_cos np_sin np_square line 0.2) 0.2)))%list).
Proof.
  unfold add_line, long_line. destruct buffers as [vs fs]. intros ->.
  destruct (build_mesh_from_points _ _) as [nv nf]. reflexivity.
Qed.

(** The vertices, the faces and the index range one long line adds. *)
Lemma add_line_counts buffers line :
  long_line line = true ->
  List.length (fst (add_line np_cos np_sin np_square buffers line))
    = List.length (fst buffers) + 4 * List.length line /\
  List.length (snd (add_line np_cos np_sin np_square buffers line)) + 4
    = List.length (snd buffers) + 8 * List.length line /\
  (Forall (within (Z.of_nat (List.length (fst buffers)))) (snd buffers) ->
   Forall (within (Z.of_nat (List.length (fst (add_line np_cos np_sin np_square buffers line)))))
     (snd (add_line np_cos np_sin np_square buffers line))).
Proof.
  intros Hlong. rewrite (add_line_long _ _ Hlong). cbn [fst snd].
  pose proof (corner_normals_length line 0.2) as Hcorners.
  rewrite Hlong in Hcorners.
  assert (Htwo : 2 <= List.length line)
    by (unfold long_line in Hlong; apply Nat.ltb_lt in Hlong; lia).
  pose proof (mesh_vertices_length
                (get_corner_normals np_cos np_sin np_square line 0.2) 0.2) as Hvs.
  pose proof (mesh_faces_length _ 0.2 (List.length line) Hcorners ltac:(lia)) as Hfs.
  destruct (mesh_triangles_sound _ 0.2 (List.length line) Hcorners ltac:(lia))
    as [Hrange _].
  rewrite !length_app, length_map, Hvs, Hfs, Hcorners.
  split; [lia |]. split; [lia |].
  intros Hvalid. apply Forall_app. split.
  - eapply Forall_impl; [| exact Hvalid].
    intros t Ht. eapply within_wider; [| exact Ht]. lia.
  - apply Forall_map. rewrite Hcorners in Hrange.
    eapply Forall_impl; [| exact Hrange].
    intros t Ht. cbv beta.
    eapply within_wider; [| apply rebase_within; [| exact Ht]]; lia.
Qed.

(** What the loop over the lines adds up to, for lines that are all long. *)
Lemma add_lines_counts lines :
  Forall (fun line => long_line line = true) lines ->
  forall buffers,
    List.length (fst (fold_left (add_line np_cos np_sin np_square) lines buffers))
      = List.length (fst buffers) + 4 * total_points lines /\
    List.length (snd (fold_left (add_line np_cos np_sin np_square) lines buffers))
      + 4 * List.length lines
      = List.length (snd buffers) + 8 * total_points lines /\
    (Forall (within (Z.of_nat (List.length (fst buffers)))) (snd buffers) ->
     Forall (within (Z.of_nat
                       (List.length
                          (fst (fold_left (add_line np_cos np_sin np_square) lines buffers)))))
       (snd (fold_left (add_line np_cos np_sin np_square) lines buffers))).
Proof.
  induction 1 as [| line rest Hline Hrest IH]; intros buffers.
  - simpl. repeat split; try lia. intros H. exact H.
  - destruct (add_line_counts buffers line Hline) as [Hv [Hf Hr]].
    destruct (IH (add_line np_cos np_sin np_square buffers line)) as [Hv' [Hf' Hr']].
    cbn [fold_left]. unfold total_points, list_sum in *.
    cbn [map fold_right List.length].
    split; [lia |]. split; [lia |].
    intros Hvalid. apply Hr', Hr, Hvalid.
Qed.

(** The loop over the lines skips the short ones. *)
Lemma add_lines_skip_short lines :
  forall buffers,
    fold_left (add_line np_cos np_sin np_square) lines buffers
    = fold_left (add_line np_cos np_sin np_square) (filter long_line lines) buffers.
Proof.
  induction lines as [| line rest IH]; intros buffers; [reflexivity |].
  cbn [fold_left filter].
  destruct (long_line line) eqn:Hlong.
  - cbn [fold_left]. apply IH.
  - rewrite (add_line_short _ _ Hlong). apply IH.
Qed.

(** The loops of lines 62-70 as one pass over the ribbon lines. *)
Lemma add_layers_ribbon_lines buffers layers height :
  add_layers np_cos np_sin np_square buffers layers height
  = fold_left (add_line np_cos np_sin np_square) (ribbon_lines layers height) buffers.
Proof.
  unfold ribbon_lines. rewrite <- add_lines_skip_short.
  unfold add_layers. destruct layers as [| l rest].
  - unfold Py.list_slice_to. destruct (0 <=? height)%Z;
      rewrite firstn_nil; reflexivity.
  - apply fold_left_concat.
Qed.

Lemma ribbon_lines_long layers height :
  Forall (fun line => long_line line = true) (ribbon_lines layers height).
Proof.
  apply Forall_forall. intros line Hin.
  unfold ribbon_lines in Hin. apply filter_In in Hin. apply Hin.
Qed.


(** X13. The vertex list line 89 passes to [trimesh.Trimesh] has four
    vertices for every point of every polyline of two points or more in the
    first [height] layers of the two tracks, and the face list eight faces
    for every such point less four for every such polyline.  (These are the
    lists passed in, not the mesh the library makes of them.) *)
Theorem object_mesh_counts self main_layers secondary_layers height :
  List.length (vertices (mesh_arguments np_cos np_sin np_square self
                           main_layers secondary_layers height))
  = 4 * (total_points (ribbon_lines main_layers height) +
         total_points (ribbon_lines secondary_layers height)) /\
  List.length (faces (mesh_arguments np_cos np_sin np_square self
                        main_layers secondary_layers height))
  + 4 * (List.length (ribbon_lines main_layers height) +
         List.length (ribbon_lines secondary_layers height))
  = 8 * (total_points (ribbon_lines main_layers height) +
         total_points (ribbon_lines secondary_layers height)).
Proof.
  unfold mesh_arguments. cbv zeta. cbn [vertices faces].
  rewrite !add_layers_ribbon_lines.
  destruct (add_lines_counts _ (ribbon_lines_long main_layers height) ([], []))
    as [Hv1 [Hf1 _]].
  destruct (add_lines_counts _ (ribbon_lines_long secondary_layers height)
              (fold_left (add_line np_cos np_sin np_square)
                 (ribbon_lines main_layers height) ([], [])))
    as [Hv2 [Hf2 _]].
  simpl in Hv1, Hf1. split; lia.
Qed.


(** X15. Polylines of fewer than two points take no part in the mesh:
    removing them from every layer of both tracks gives the same arguments
    for [trimesh.Trimesh] and so the same mesh. *)
Theorem object_mesh_skips_short_lines self main_layers secondary_layers height :
  mesh_arguments np_cos np_sin np_square self
    (map (filter long_line) main_layers)
    (map (filter long_line) secondary_layers) height
  = mesh_arguments np_cos np_sin np_square self main_layers secondary_layers height /\
  build_object_mesh np_cos np_sin np_square Mesh Trimesh self
    (map (filter long_line) main_layers)
    (map (filter long_line) secondary_layers) height
  = build_object_mesh np_cos np_sin np_square Mesh Trimesh self
      main_layers secondary_layers height.
Proof.
  assert (Hsame : forall layers,
             ribbon_lines (map (filter long_line) layers) height
             = ribbon_lines layers height).
  { intros layers. unfold ribbon_lines.
    rewrite list_slice_to_map. unfold layer. rewrite <- filter_concat.
    set (lines := List.concat _).
    induction lines as [| line rest IH]; [reflexivity |].
    cbn [filter]. destruct (long_line line) eqn:Hlong.
    - cbn [filter]. rewrite Hlong, IH. reflexivity.
    - exact IH. }
  assert (Harguments :
            mesh_arguments np_cos np_sin np_square self
              (map (filter long_line) main_layers)
              (map (filter long_line) secondary_layers) height
            = mesh_arguments np_cos np_sin np_square self
                main_layers secondary_layers height).
  { unfold mesh_arguments. cbv zeta.
    rewrite !add_layers_ribbon_lines, !Hsame. reflexivity. }
  split; [exact Harguments |].
  unfold build_object_mesh. rewrite Harguments. reflexivity.
Qed.

(** X14. With a height that is not negative, the mesh is built from the
    first [height] layers of each track and from nothing else: tracks that
    agree on those layers give the same arguments for [trimesh.Trimesh] and
    so the same mesh. *)
Theorem object_mesh_uses_first_layers self main_layers secondary_layers
    main_layers' secondary_layers' height :
  (0 <= height)%Z ->
  firstn (Z.to_nat height) main_layers = firstn (Z.to_nat height) main_layers' ->
  firstn (Z.to_nat height) secondary_layers
    = firstn (Z.to_nat height) secondary_layers' ->
  mesh_arguments np_cos np_sin np_square self main_layers secondary_layers height
  = mesh_arguments np_cos np_sin np_square self main_layers' secondary_layers' height /\
  build_object_mesh np_cos np_sin np_square Mesh Trimesh self
    main_layers secondary_layers height
  = build_object_mesh np_cos np_sin np_square Mesh Trimesh self
      main_layers' secondary_layers' height.
Proof.
  intros Hheight Hmain Hsecondary.
  assert (Harguments :
            mesh_arguments np_cos np_sin np_square self
              main_layers secondary_layers height
            = mesh_arguments np_cos np_sin np_square self
                main_layers' secondary_layers' height).
  { unfold mesh_arguments. cbv zeta.
    rewrite !add_layers_ribbon_lines. unfold ribbon_lines, Py.list_slice_to.
    assert (Hpos : (0 <=? height)%Z = true) by (apply Z.leb_le; exact Hheight).
    rewrite Hpos, Hmain, Hsecondary. reflexivity. }
  split; [exact Harguments |].
  unfold build_object_mesh. rewrite Harguments. reflexivity.
Qed.

End ObjectMeshFacts.

(** Two tracks that differ in their second layer only, cut at height 1. *)
Lemma object_mesh_uses_first_layers_witness :
  taller_track <> straight_track /\
  mesh_arguments cos_quarter sin_quarter square_product test_watchdog
    taller_track [] 1
  = mesh_arguments cos_quarter sin_quarter square_product test_watchdog
      straight_track [] 1 /\
  build_object_mesh cos_quarter sin_quarter square_product
    TrimeshArguments (fun arguments => arguments) test_watchdog
    taller_track [] 1
  = build_object_mesh cos_quarter sin_quarter square_product
      TrimeshArguments (fun arguments => arguments) test_watchdog
      straight_track [] 1.
Proof.
  split; [discriminate |].
  apply (object_mesh_uses_first_layers cos_quarter sin_quarter square_product
           TrimeshArguments (fun arguments => arguments) test_watchdog
           taller_track [] straight_track [] 1).
  - lia.
  - reflexivity.
  - reflexivity.
Defined.

(** * Properties of the stored tracks *)

(** X16. [set_layers] always stores its first argument, but it cannot empty
    the second track: after the call the stored second track is empty only
    when the argument was empty and the track stored before was empty too;
    an argument that is not empty replaces it. *)
Theorem set_layers_cannot_clear_second_track self layers secondary_layers :
  self_layers (set_layers self layers secondary_layers) = layers /\
  (self_secondary_layers (set_layers self layers secondary_layers) = [] <->
   secondary_layers = [] /\ self_secondary_layers self = []) /\
  (secondary_layers <> [] ->
   self_secondary_layers (set_layers self layers secondary_layers)
   = secondary_layers).
Proof.
  split; [reflexivity |].
  destruct secondary_layers as [| l rest]; simpl.
  - split.
    + split; [intros H; split; [reflexivity | exact H] | intros [_ H]; exact H].
    + intros H. contradiction H. reflexivity.
  - split.
    + split; [intros H; discriminate H | intros [H _]; discriminate H].
    + reflexivity.
Qed.

(** Both returned tracks hold polylines of two points or more only. *)
Lemma parsed_tracks_long file hd one two :
  parse_gcode_file file hd = Py.Ok (one, two) ->
  Forall two_points_or_more one /\ Forall two_points_or_more two.
Proof.
  unfold parse_gcode_file. intros H.
  apply bind_ok in H. destruct H as [st [Hrun Hret]].
  injection Hret as <- <-.
  destruct (stored_lines_invariant _ _ _ Hrun) as [[H1 _] [H2 _]].
  split.
  - destruct (one_layers st); [constructor | inversion H1; assumption].
  - destruct (two_layers st); [constructor | inversion H2; assumption].
Qed.

Lemma Forall_first {A : Type} (P : A -> Prop) (n : nat) (l : list A) :
  Forall P l -> Forall P (firstn n l).
Proof.
  intros H. revert n. induction H as [| a l Ha Hl IH]; intros [| n]; simpl;
    constructor; [exact Ha | apply IH].
Qed.

(** On layers without short polylines the test of line 65 lets every
    polyline through. *)
Lemma ribbon_lines_of_long_layers layers height :
  Forall two_points_or_more layers ->
  ribbon_lines layers height = List.concat (Py.list_slice_to height layers).
Proof.
  intros Hlayers. unfold ribbon_lines.
  assert (Hslice : Forall two_points_or_more (Py.list_slice_to height layers))
    by (unfold Py.list_slice_to; destruct (0 <=? height)%Z;
        apply Forall_first; exact Hlayers).
  induction Hslice as [| l rest Hl Hrest IH]; [reflexivity |].
  cbn [List.concat]. rewrite filter_app, IH. f_equal.
  clear - Hl. induction Hl as [| line lines Hline Hlines IH]; [reflexivity |].
  cbn [filter]. unfold long_line at 1.
  assert (Hlong : (1 <? List.length line)%nat = true) by (apply Nat.ltb_lt; lia).
  rewrite Hlong, IH. reflexivity.
Qed.

(** X17. What [read_layers_from_file] stores, [build_object_mesh] uses in
    full: when the file is read without error, the vertex list built from
    the stored tracks and passed to [trimesh.Trimesh] has four vertices for
    every point of every polyline in the first [height] layers of both
    tracks; the test that skips polylines of fewer than two points never
    applies to them.  (This counts the vertices passed in, not those of the
    mesh the library makes of them.) *)
Theorem read_file_then_mesh_uses_every_polyline
    np_cos np_sin np_square self file self' dog height :
  read_layers_from_file self file = Py.Ok self' ->
  List.length (vertices (mesh_arguments np_cos np_sin np_square dog
                           (self_layers self') (self_secondary_layers self')
                           height))
  = 4 * (total_points
           (List.concat (Py.list_slice_to height (self_layers self'))) +
         total_points
           (List.concat (Py.list_slice_to height (self_secondary_layers self')))).
Proof.
  unfold read_layers_from_file. intros Hread.
  apply bind_ok in Hread. destruct Hread as [[one two] [Hparse Hret]].
  injection Hret as <-. cbn [fst snd self_layers self_secondary_layers].
  destruct (parsed_tracks_long _ _ _ _ Hparse) as [Hone Htwo].
  rewrite <- (ribbon_lines_of_long_layers one height Hone),
          <- (ribbon_lines_of_long_layers two height Htwo).
  unfold mesh_arguments. cbv zeta. cbn [vertices].
  rewrite !add_layers_ribbon_lines.
  destruct (add_lines_counts np_cos np_sin np_square _ (ribbon_lines_long one height) ([], []))
    as [Hv1 _].
  destruct (add_lines_counts np_cos np_sin np_square _ (ribbon_lines_long two height)
              (fold_left (add_line np_cos np_sin np_square) (ribbon_lines one height) ([], [])))
    as [Hv2 _].
  cbn [fst List.length] in Hv1. lia.
Qed.

Lemma read_file_then_mesh_uses_every_polyline_witness :
  List.length
    (vertices
       (mesh_arguments cos_quarter sin_quarter square_product test_watchdog
          (self_layers two_layers_read)
          (self_secondary_layers two_layers_read) 36))
  = 4 * (total_points
           (List.concat (Py.list_slice_to 36 (self_layers two_layers_read))) +
         total_points
           (List.concat
              (Py.list_slice_to 36 (self_secondary_layers two_layers_read)))).
Proof.
  apply (read_file_then_mesh_uses_every_polyline cos_quarter sin_quarter square_product
           no_layers two_layer_print two_layers_read test_watchdog 36).
  vm_compute. reflexivity.
Defined.

(** * Properties of the image comparison *)

Section CompareImagesFacts.

Variable subtract : Z -> Z -> Z.
Variable np_mean : pixel -> PrimFloat.float.

Lemma Forall2_nth {A B : Type} (R : A -> B -> Prop) (d : A) (d' : B) :
  R d d' ->
  forall l l', Forall2 R l l' -> forall i, R (nth i l d) (nth i l' d').
Proof.
  intros Hd l l' H. induction H as [| a b l l' Hab Hl IH]; intros i.
  - destruct i; exact Hd.
  - destruct i as [| i]; [exact Hab | apply IH].
Qed.

Lemma difference_shape_0 real rendered :
  same_shape real rendered ->
  shape_0 (array_difference subtract real rendered) = shape_0 real.
Proof.
  intros Hshape. unfold shape_0, array_difference.
  rewrite length_map, length_combine, <- (Forall2_length Hshape).
  apply Nat.min_id.
Qed.

Lemma difference_shape_1 real rendered :
  same_shape real rendered ->
  shape_1 (array_difference subtract real rendered) = shape_1 real.
Proof.
  intros Hshape. unfold shape_1, array_difference.
  destruct Hshape as [| row row' rows rows' Hrow Hrows]; [reflexivity |].
  cbn [combine map nth fst snd].
  rewrite length_map, length_combine.
  apply Nat.min_l, Nat.eq_le_incl. exact (Forall2_length Hrow).
Qed.

Lemma nth_map_combine {A B C : Type} (f : A * B -> C) (d : A) (d' : B)
    (l : list A) (l' : list B) (i : nat) :
  List.length l = List.length l' ->
  nth i (map f (combine l l')) (f (d, d')) = f (nth i l d, nth i l' d').
Proof.
  intros Hlen. rewrite map_nth, combine_nth by exact Hlen. reflexivity.
Qed.

(** [difference[i, j]] is [real[i, j] - rendered[i, j]]. *)
Lemma difference_pixel_at real rendered i j :
  same_shape real rendered ->
  pixel_at (array_difference subtract real rendered) i j
  = pixel_difference subtract (pixel_at real i j) (pixel_at rendered i j).
Proof.
  intros Hshape. unfold pixel_at, array_difference, pixel_difference.
  assert (Hrow : Forall2 (fun p q : pixel => List.length p = List.length q)
                   (nth i real []) (nth i rendered []))
    by (apply (Forall2_nth _ [] [] (Forall2_nil _) _ _ Hshape)).
  match goal with
  | |- nth _ (nth _ (map ?on_rows _) _) _ = _ =>
      transitivity (nth j (on_rows (nth i real [], nth i rendered [])) []);
        [f_equal;
         exact (nth_map_combine on_rows [] [] real rendered i
                  (Forall2_length Hshape)) |]
  end.
  cbn [fst snd].
  match goal with
  | |- nth _ (map ?on_pixels _) _ = _ =>
      exact (nth_map_combine on_pixels [] []
               (nth i real []) (nth i rendered []) j (Forall2_length Hrow))
  end.
Qed.

Lemma fold_left_pairs {A : Type} (f : nat -> A -> nat -> A) (js : list nat) :
  forall (indices : list nat) (a : A),
    fold_left (fun a i => fold_left (f i) js a) indices a
    = fold_left (fun a p => f (fst p) a (snd p)) (list_prod indices js) a.
Proof.
  induction indices as [| i rest IH]; intros a; [reflexivity |].
  cbn [fold_left list_prod]. rewrite fold_left_app, <- IH. f_equal.
  clear. revert a. induction js as [| j js IH]; intros a; [reflexivity |].
  cbn [map fold_left fst snd]. apply IH.
Qed.

Local Open Scope Z_scope.

(** The two counters after the loops have visited a list of positions. *)
Lemma compare_pixel_counts real rendered empty_value threshold
    (visited : list (nat * nat)) :
  same_shape real rendered ->
  forall total below,
    fold_left
      (fun counters position =>
         compare_pixel np_mean real (array_difference subtract real rendered)
           empty_value threshold (fst position) counters (snd position))
      visited (total, below)
    = (total + count_of (is_compared real empty_value) visited,
       below + count_of (fun position =>
                           is_compared real empty_value position &&
                           is_below subtract np_mean real rendered threshold position)
                 visited).
Proof.
  intros Hshape. unfold count_of.
  induction visited as [| [i j] rest IH]; intros total below.
  - cbn. f_equal; lia.
  - cbn [fold_left fst snd].
    assert (Hstep :
              compare_pixel np_mean real (array_difference subtract real rendered)
                empty_value threshold i (total, below) j
              = (total + (if is_compared real empty_value (i, j) then 1 else 0),
                 below + (if is_compared real empty_value (i, j) &&
                             is_below subtract np_mean real rendered threshold (i, j)
                          then 1 else 0))).
    { unfold compare_pixel, is_compared, is_below. cbn [fst snd].
      rewrite (difference_pixel_at real rendered i j Hshape).
      destruct (array_equal (pixel_at real i j) empty_value); cbn [negb andb].
      - f_equal; lia.
      - destruct (np_mean _ <? threshold)%float; f_equal; lia. }
    rewrite Hstep, IH. cbn [filter].
    destruct (is_compared real empty_value (i, j)); cbn [andb];
      [destruct (is_below subtract np_mean real rendered threshold (i, j)) |];
      cbn [List.length]; f_equal; lia.
Qed.

Lemma compare_images_counts real rendered empty_value threshold :
  same_shape real rendered ->
  compare_images subtract np_mean real rendered empty_value threshold
  = true_divide
      (count_of (fun position =>
                   is_compared real empty_value position &&
                   is_below subtract np_mean real rendered threshold position)
         (positions real))
      (count_of (is_compared real empty_value) (positions real)).
Proof.
  intros Hshape. unfold compare_images. cbv zeta.
  rewrite (difference_shape_0 real rendered Hshape),
          (difference_shape_1 real rendered Hshape).
  rewrite (fold_left_pairs
             (compare_pixel np_mean real (array_difference subtract real rendered)
                empty_value threshold)).
  fold (positions real).
  rewrite (compare_pixel_counts real rendered empty_value threshold
             (positions real) Hshape 0 0).
  cbn [fst snd]. reflexivity.
Qed.

Lemma count_of_zero {A : Type} (test : A -> bool) (l : list A) :
  count_of test l = 0 <-> forall a, In a l -> test a = false.
Proof.
  unfold count_of. induction l as [| a rest IH]; cbn [filter].
  - split; [intros _ a [] | reflexivity].
  - destruct (test a) eqn:Ha.
    + split.
      * cbn [List.length]. lia.
      * intros Hall. rewrite (Hall a (or_introl eq_refl)) in Ha. discriminate Ha.
    + rewrite IH. split.
      * intros Hall b [<- | Hb]; [exact Ha | exact (Hall b Hb)].
      * intros Hall b Hb. apply Hall. right. exact Hb.
Qed.

(** X18. For a real image whose rows have the same number of pixels and a
    rendered image of the same shape, [compare_images] returns the number of
    positions at which the pixel of the real image is not the
    empty value and the mean of the difference of the two images is below
    the threshold, divided by the number of positions at which the pixel of
    the real image is not the empty value.  It raises [ZeroDivisionError]
    exactly when every pixel of the real image is the empty value, which
    includes images without pixels. *)
Theorem compare_images_ratio real rendered empty_value threshold :
  rectangular real ->
  same_shape real rendered ->
  compare_images subtract np_mean real rendered empty_value threshold
  = true_divide
      (count_of (fun position =>
                   is_compared real empty_value position &&
                   is_below subtract np_mean real rendered threshold position)
         (positions real))
      (count_of (is_compared real empty_value) (positions real)) /\
  (compare_images subtract np_mean real rendered empty_value threshold
   = Throws ZeroDivisionError <->
   Forall (Forall (fun p => array_equal p empty_value = true)) real).
Proof.
  intros Hrows Hshape.
  rewrite (compare_images_counts real rendered empty_value threshold Hshape).
  split; [reflexivity |].
  unfold true_divide.
  destruct (Z.eqb_spec (count_of (is_compared real empty_value) (positions real)) 0)
    as [Hzero | Hpos].
  - split; [intros _ | reflexivity].
    rewrite count_of_zero in Hzero.
    apply Forall_forall. intros row Hrow. apply Forall_forall. intros p Hp.
    destruct (In_nth _ _ [] Hrow) as [i [Hi Hrow_i]].
    destruct (In_nth _ _ [] Hp) as [j [Hj Hp_j]].
    assert (Hwidth : List.length row = shape_1 real)
      by (unfold rectangular in Hrows; rewrite Forall_forall in Hrows;
          exact (Hrows row Hrow)).
    assert (Hin : In (i, j) (positions real)).
    { unfold positions. apply in_prod; apply in_seq.
      - unfold shape_0. lia.
      - split; [lia | rewrite <- Hwidth; exact Hj]. }
    specialize (Hzero (i, j) Hin). unfold is_compared, pixel_at in Hzero.
    cbn [fst snd] in Hzero. apply negb_false_iff in Hzero.
    subst row. subst p. exact Hzero.
  - split; [discriminate |]. intros Hall. exfalso. apply Hpos.
    apply count_of_zero. intros [i j] Hin.
    unfold positions in Hin. apply in_prod_iff in Hin. destruct Hin as [Hi Hj].
    apply in_seq in Hi. apply in_seq in Hj. unfold shape_0 in Hi.
    unfold is_compared, pixel_at. cbn [fst snd].
    assert (Hrow : In (nth i real []) real) by (apply nth_In; lia).
    unfold rectangular in Hrows. rewrite Forall_forall in Hall, Hrows.
    pose proof (Hall _ Hrow) as Hpixels. pose proof (Hrows _ Hrow) as Hwidth.
    rewrite Forall_forall in Hpixels.
    rewrite (Hpixels (nth j (nth i real []) [])); [reflexivity |].
    apply nth_In. lia.
Qed.

End CompareImagesFacts.

(** On two images of two by two pixels of 8-bit channels: three pixels of
    the photograph are compared and one of them is below the threshold. *)
Lemma compare_images_ratio_witness :
  rectangular photo /\ same_shape photo render /\
  count_of (is_compared photo [0; 0; 0]%Z) (positions photo) = 3%Z /\
  count_of (fun position =>
              is_compared photo [0; 0; 0]%Z position &&
              is_below subtract_uint8 mean_of_channels photo render 5 position)
    (positions photo) = 1%Z /\
  compare_images subtract_uint8 mean_of_channels photo render [0; 0; 0]%Z 5
  = true_divide
      (count_of (fun position =>
                   is_compared photo [0; 0; 0]%Z position &&
                   is_below subtract_uint8 mean_of_channels photo render 5 position)
         (positions photo))
      (count_of (is_compared photo [0; 0; 0]%Z) (positions photo)) /\
  (compare_images subtract_uint8 mean_of_channels photo render [0; 0; 0]%Z 5
   = Throws ZeroDivisionError <->
   Forall (Forall (fun p => array_equal p [0; 0; 0]%Z = true)) photo).
Proof.
  assert (Hrows : rectangular photo) by (repeat constructor).
  assert (Hshape : same_shape photo render) by (repeat constructor).
  split; [exact Hrows |].
  split; [exact Hshape |].
  split; [vm_compute; reflexivity |].
  split; [vm_compute; reflexivity |].
  exact (compare_images_ratio subtract_uint8 mean_of_channels photo render
           [0; 0; 0]%Z 5 Hrows Hshape).
Defined.


Local Open Scope Z_scope.

Lemma Forall_map_combine {A B C : Type} (P : A -> Prop) (Q : B -> Prop)
    (R : C -> Prop) (f : A * B -> C) :
  (forall a b, P a -> Q b -> R (f (a, b))) ->
  forall l1 l2, Forall P l1 -> Forall Q l2 -> Forall R (map f (combine l1 l2)).
Proof.
  intros Hf l1 l2 H1. revert l2.
  induction H1 as [| a l1 Ha Hl1 IH]; intros l2 H2; [constructor |].
  destruct H2 as [| b l2 Hb Hl2]; [constructor |].
  simpl. constructor; [apply Hf; assumption | apply IH; assumption].
Qed.

Lemma blend_channel_bounds real rendered :
  0 <= real <= 255 -> 0 <= rendered <= 255 ->
  0 <= blend_channel real rendered <= 252.
Proof.
  intros Hreal Hrendered. unfold blend_channel.
  pose proof (Z.div_mod real 4 ltac:(lia)) as H1.
  pose proof (Z.mod_pos_bound real 4 ltac:(lia)) as H2.
  pose proof (Z.div_mod rendered 4 ltac:(lia)) as H3.
  pose proof (Z.mod_pos_bound rendered 4 ltac:(lia)) as H4.
  lia.
Qed.

(** X19. For two images whose channels are 8-bit values, 0 to 255, every
    channel of the image [test_compare_images] saves lies between 0 and 252:
    the sum never leaves the 8-bit range, and never reaches full white. *)
Theorem blended_image_stays_in_range real rendered :
  channels_within 255 real ->
  channels_within 255 rendered ->
  channels_within 252 (test_compare_images real rendered).
Proof.
  unfold channels_within, test_compare_images.
  apply Forall_map_combine. intros row1 row2.
  apply Forall_map_combine. intros pixel1 pixel2.
  apply Forall_map_combine. intros a b.
  apply blend_channel_bounds.
Qed.

Lemma blended_image_stays_in_range_witness :
  channels_within 252 (test_compare_images photo render).
Proof.
  apply (blended_image_stays_in_range photo render);
    repeat constructor; lia.
Defined.

Lemma combine_with_itself {A : Type} (l : list A) :
  combine l l = map (fun x => (x, x)) l.
Proof.
  induction l as [| a rest IH]; simpl; [reflexivity | rewrite IH; reflexivity].
Qed.

(** X20. Blending an image with itself does not give the image back: every
    channel loses its remainder modulo 4. *)
Theorem blend_with_itself_drops_low_bits (img : image) :
  test_compare_images img img = map (map (map (fun c => c - c mod 4))) img.
Proof.
  unfold test_compare_images.
  rewrite combine_with_itself, map_map. apply map_ext. intros row. cbn [fst snd].
  rewrite combine_with_itself, map_map. apply map_ext. intros p. cbn [fst snd].
  rewrite combine_with_itself, map_map. apply map_ext. intros c. cbn [fst snd].
  unfold blend_channel.
  pose proof (Z.div_mod c 4 ltac:(lia)). lia.
Qed.

Local Close Scope Z_scope.
